(** * cloudwatch-dump: a shallow embedding of [cloudwatch_dump.py]

    The program lists the CloudWatch metrics of a region, queries two
    statistics for each of them over one time window and prints the
    datapoints (graphite text) or writes them to InfluxDB.

    The embedding follows the source function by function.  Strings are
    Python 2 byte strings ([string]); a [dict] that is only read by key is a
    [gmap]; a [dict] that is iterated ([metric.dimensions]) is the list of its
    items in the dict's iteration order; integers are [Z].  Calls to the
    outside world (CloudWatch, EC2, InfluxDB, [print]) are recorded in an
    event trace by a small trace-and-exception monad. *)

From Stdlib Require Import ZArith Lia Ascii.
From stdpp Require Import base tactics option list gmap strings sorting.

Local Open Scope Z_scope.

(** ** Python strings *)

Module Py.

(** [s.split(sep)] for a one-character separator: every occurrence cuts,
    so the result is never empty and ["".split("/")] is [[""]]. *)
Fixpoint split (sep : ascii) (s : string) : list string :=
  match s with
  | EmptyString => [EmptyString]
  | String c rest =>
      if decide (c = sep) then EmptyString :: split sep rest
      else match split sep rest with
           | [] => [String c EmptyString]
           | piece :: pieces => String c piece :: pieces
           end
  end.

(** [s.replace(old, new)] for one-character [old] and [new]. *)
Fixpoint replace (old new : ascii) (s : string) : string :=
  match s with
  | EmptyString => EmptyString
  | String c rest =>
      String (if decide (c = old) then new else c) (replace old new rest)
  end.

(** [sep.join(l)]. *)
Fixpoint join (sep : string) (l : list string) : string :=
  match l with
  | [] => EmptyString
  | [x] => x
  | x :: rest => x +:+ sep +:+ join sep rest
  end.

(** Iterating a [str] yields its characters as one-character strings. *)
Fixpoint chars (s : string) : list string :=
  match s with
  | EmptyString => []
  | String c rest => String c EmptyString :: chars rest
  end.

(** Truth value of a [str]: the empty string is false. *)
Definition truthy (s : string) : bool :=
  match s with EmptyString => false | _ => true end.

(** Truth value of [None] or a [str]. *)
Definition truthy_opt (o : option string) : bool :=
  match o with None => false | Some s => truthy s end.

(** Does the character occur in the string? *)
Fixpoint occurs (c : ascii) (s : string) : bool :=
  match s with
  | EmptyString => false
  | String c' rest => if decide (c' = c) then true else occurs c rest
  end.

(** [sorted(d.items())]: the keys of a dict are distinct, so comparing the
    (key, value) tuples is decided by the keys alone; the keys are byte
    strings, compared lexicographically. *)
Fixpoint insert_item {A} (kv : string * A) (l : list (string * A))
  : list (string * A) :=
  match l with
  | [] => [kv]
  | kv' :: rest =>
      if String.leb kv.1 kv'.1 then kv :: l else kv' :: insert_item kv rest
  end.

Definition sorted_items {A} (l : list (string * A)) : list (string * A) :=
  foldr insert_item [] l.

(** [dict(pairs)]: a later pair overrides an earlier one with the same key. *)
Definition dict {A} (pairs : list (string * A)) : gmap string A :=
  foldl (λ d kv, <[kv.1 := kv.2]> d) ∅ pairs.

End Py.

(** ** The data model *)

(** A dimension value: boto delivers a list of strings; the code iterates
    whatever it finds, so a plain string is iterated character by
    character. *)
Inductive DimValue :=
  | DimList (values : list string)
  | DimStr (value : string).

(** [for s in v]. *)
Definition iter_value (v : DimValue) : list string :=
  match v with
  | DimList values => values
  | DimStr value => Py.chars value
  end.

Record RegionInfo := { region_name : string }.
Record Connection := { region : RegionInfo }.

Record Metric := {
  connection : Connection;
  namespace : string;
  name : string;
  (** the items of the [dimensions] dict, in its iteration order *)
  dimensions : list (string * DimValue)
}.

Definition slash : ascii := "/"%char.
Definition underscore : ascii := "_"%char.

(** ** [metric_to_tag] *)

(** The generator expression of line 58, for one [s]:
    ['root' if s == '/' else ec2_names.get(s, s).replace('/', '_')]. *)
Definition tag_component (ec2_names : gmap string string) (s : string) : string :=
  if decide (s = "/") then "root"
  else Py.replace slash underscore (default s (ec2_names !! s)).

Definition metric_to_tag (metric : Metric) (statistics : string)
    (ec2_names : gmap string string) : string :=
  let buf := [] in
  let buf := buf ++ [region_name (region (connection metric))] in
  let buf := buf ++ [statistics] in
  let buf := buf ++ Py.split slash (namespace metric) in
  let buf :=
    foldl (λ buf x, buf ++ (tag_component ec2_names <$> iter_value x.2))
          buf (Py.sorted_items (dimensions metric)) in
  let buf := buf ++ [name metric] in
  Py.join "." buf.

Definition mk_metric (r ns n : string) (dims : list (string * DimValue)) : Metric :=
  {| connection := {| region := {| region_name := r |} |};
     namespace := ns; name := n; dimensions := dims |}.

(** ** Exceptions and results *)

Inductive exn :=
  | OverflowError (msg : string)
  | ZeroDivisionError (msg : string)
  | ValueError (msg : string)
  | KeyError (key : string)
  | AttributeError (msg : string)
  | Exception (args : list string)
  | BotoServerError (msg : string)
  | InfluxDBClientError (content : string) (code : option Z)
  | InfluxDBServerError (content : string)
  | ConnectionError (msg : string).

(** The outcome of a call: a value, a raised exception, or a loop that was
    still running when the fuel of the model ran out. *)
Inductive result (A : Type) :=
  | Ok (a : A)
  | Raise (e : exn)
  | OutOfFuel.
Arguments Ok {A} a.
Arguments Raise {A} e.
Arguments OutOfFuel {A}.

Definition result_bind {A B} (r : result A) (f : A → result B) : result B :=
  match r with
  | Ok a => f a
  | Raise e => Raise e
  | OutOfFuel => OutOfFuel
  end.

Definition of_sum {A} (r : exn + A) : result A :=
  match r with inl e => Raise e | inr a => Ok a end.

(** ** [datetime.timedelta] and [datetime.datetime] *)

Module Datetime.

(** A normalized [timedelta]: [0 <= seconds < 86400],
    [0 <= microseconds < 1000000], [|days| <= 999999999]. *)
Record timedelta := {
  days : Z;
  seconds : Z;
  microseconds : Z
}.

Definition max_delta_days : Z := 999999999.

(** [timedelta(minutes=n)] for an integer [n]: the minutes become seconds,
    which are carried into days; too many days raise [OverflowError] (the
    message is kept without the number of days). *)
Definition timedelta_minutes (minutes : Z) : result timedelta :=
  let s := minutes * 60 in
  let d := s / 86400 in
  if Z.abs d <=? max_delta_days
  then Ok {| days := d; seconds := s mod 86400; microseconds := 0 |}
  else Raise (OverflowError "days; must have magnitude <= 999999999").

(** The whole duration in microseconds ([total_seconds() * 10**6]). *)
Definition total_microseconds (d : timedelta) : Z :=
  (days d * 86400 + seconds d) * 1000000 + microseconds d.

Inductive tzinfo := tzlocal | tzutc.

(** A [datetime]: the wall-clock reading, counted in microseconds from
    0001-01-01 00:00:00 ([datetime.min]), and the attached time zone
    ([None] for a naive value).  Arithmetic with a [timedelta] moves the
    wall-clock reading and keeps the zone. *)
Record datetime := {
  ticks : Z;
  tz : option tzinfo
}.

(** One past [datetime.max] (9999-12-31 23:59:59.999999). *)
Definition max_ticks : Z := 3652059 * 86400 * 1000000.

Definition in_range (t : Z) : bool := (0 <=? t) && (t <? max_ticks).

Definition at_ticks (t : Z) (zone : option tzinfo) : result datetime :=
  if in_range t then Ok {| ticks := t; tz := zone |}
  else Raise (OverflowError "date value out of range").

(** [t + d] and [t - d]. *)
Definition add (t : datetime) (d : timedelta) : result datetime :=
  at_ticks (ticks t + total_microseconds d) (tz t).

Definition sub (t : datetime) (d : timedelta) : result datetime :=
  at_ticks (ticks t - total_microseconds d) (tz t).

End Datetime.

Import Datetime.

(** ** [util.RichDateTime] *)

(** Modelled from the spec: the module [util] with the class [RichDateTime]
    is not under src/.  The source uses it as a [datetime] (it adds and
    subtracts [timedelta]s), so a [RichDateTime] is a [datetime] here, and
    [RichDateTime.from_datetime(dt)] keeps the value of [dt]. *)
Definition RichDateTime : Type := datetime.

Definition from_datetime (dt : datetime) : RichDateTime := dt.

(** The operations of [RichDateTime] whose results the program only passes
    on are taken as given. *)
Record Util := {
  (** [RichDateTime.strptime(s, '%Y%m%d%H%M')] *)
  strptime : string → exn + RichDateTime;
  (** [t.to_utc()], [t.to_local()], [t.epoch()] *)
  to_utc : RichDateTime → RichDateTime;
  to_local : RichDateTime → RichDateTime;
  epoch : RichDateTime → Z;
  (** [RichDateTime.from_datetime(dt, tzlocal())] *)
  from_datetime_tzlocal : datetime → RichDateTime;
  (** the wall-clock reading that counts as zero when a [RichDateTime] is
      reduced modulo a duration *)
  mod_origin : Z
}.

(** Modelled from the spec: [RichDateTime.__mod__] is not under src/.
    Spec 4.1: "truncate to the most recent interval boundary using modulo
    arithmetic against the interval duration (i.e., now - (now mod
    interval))".  The modulo is Python's: it has the sign of the divisor and
    raises [ZeroDivisionError] for a zero duration. *)
Definition rich_mod (U : Util) (t : RichDateTime) (d : timedelta)
  : result datetime :=
  let width := total_microseconds d in
  if decide (width = 0)
  then Raise (ZeroDivisionError "integer division or modulo by zero")
  else at_ticks (ticks t - (ticks t - mod_origin U) mod width) (tz t).

(** ** [get_time_range] *)

(** [now] is the value [RichDateTime.now()] would return; it is read only
    when [time_str] is false (None or empty). *)
Definition get_time_range (U : Util) (now : RichDateTime)
    (time_str : option string) (interval : Z)
  : result (RichDateTime * RichDateTime) :=
  result_bind (timedelta_minutes interval) (λ d,
  result_bind
    (if Py.truthy_opt time_str
     then of_sum (strptime U (default EmptyString time_str))
     else result_bind (rich_mod U now d) (λ truncated,
          result_bind (sub truncated d) (λ t, Ok (from_datetime t))))
    (λ t,
  result_bind (add t d) (λ t_end, Ok (t, from_datetime t_end)))).

(** ** The outside world *)

(** One page of [list_metrics]: the metrics and the continuation token. *)
Record ResultSet := {
  items : list Metric;
  next_token : option string
}.

(** An EC2 instance as [get_ec2_names] reads it. *)
Record Instance := {
  instance_id : string;
  instance_tags : gmap string string
}.

Record Reservation := { instances : list Instance }.

(** The parsed command line, as [parse_args] declares it: eight options and
    nothing else. *)
Record Options := {
  opt_region : string;
  opt_time : option string;
  opt_interval : Z;
  opt_period : Z;
  opt_resolve : bool;
  opt_check : bool;
  opt_output : string;
  opt_influxdb_database : string
}.

Section Model.

(** The type of a statistic's value (a Python float); the program only
    passes values on. *)
Context {value : Type}.

(** A datapoint as CloudWatch returns it: a dict with the key
    ['Timestamp'] and one key per statistic. *)
Record RawDatapoint := {
  Timestamp : datetime;
  stat_values : gmap string value
}.

(** The tuple [(metric, statistics, value, timestamp)]. *)
Definition Data : Type := Metric * string * value * RichDateTime.

(** One element of the [json_body] list handed to [write_points]. *)
Record Point := {
  measurement : string;
  tags : gmap string string;
  time : Z;
  fields : gmap string value
}.

(** What a [print] writes, as the format and its arguments. *)
Inductive Output :=
  | OutStart (start : RichDateTime)                     (* 'start : %s' *)
  | OutEnd (end_ : RichDateTime)                        (* 'end   : %s' *)
  | OutPeriod (period : Z)                              (* 'period: %s min' *)
  | OutNames (ec2_names : gmap string string)           (* 'ec2 names: %s' *)
  | OutWillCollect (tag : string)                       (* 'will collect metric: %s' *)
  | OutData (tag : string) (v : value) (secs : Z)       (* '%s %.10f %d' *)
  | OutDebugHead (n : string) (secs : Z) (v : value)    (* "%s %d %d" *)
  | OutDebugStatistic (s : string)                      (* " statistic=%s" *)
  | OutDebugNamespace (ns : string)                     (* " namespace=%s" *)
  | OutDebugDimension (d : string) (joined : string)    (* " [%s=%s]" *)
  | OutDebugNewline.

(** The calls the program makes to its collaborators, in program order. *)
Inductive event :=
  | EvListMetrics (region : string) (token : option string)
  | EvGetAllInstances (region : string)
  | EvQuery (m : Metric) (start_utc end_utc : RichDateTime)
            (statistics : string) (unit : option string) (period : Z)
  | EvCreateDatabase (dbname : string)
  | EvWritePoints (json_body : list Point) (time_precision : string)
  | EvPrint (out : Output).

(** The answers of the collaborators.  The failures are those the program
    is specified to meet: no client for the region, a failed query, a
    failed database creation. *)
Record World := {
  (** [RichDateTime.now()] *)
  now : RichDateTime;
  (** [cloudwatch.connect_to_region(region)]: [None], or a client whose
      [list_metrics] answers a continuation token with a page *)
  cloudwatch_connect : string → option (option string → ResultSet);
  (** [metric.query(start, end, statistics, unit, period)] *)
  metric_query : Metric → RichDateTime → RichDateTime → string →
                 option string → Z → exn + list RawDatapoint;
  (** [ec2.connect_to_region(region)] and the client's
      [get_all_instances()] *)
  ec2_connect : string → option (list Reservation);
  (** [client.create_database(name)]: the exception it raises, if any *)
  create_database : string → option exn
}.

(** *** The monad: an event trace and an outcome *)

Definition M (A : Type) : Type := list event * result A.

Definition ret {A} (a : A) : M A := ([], Ok a).

Definition bind {A B} (m : M A) (f : A → M B) : M B :=
  match m with
  | (tr, Ok a) => let '(tr', r) := f a in (tr ++ tr', r)
  | (tr, Raise e) => (tr, Raise e)
  | (tr, OutOfFuel) => (tr, OutOfFuel)
  end.

Definition emit (e : event) : M unit := ([e], Ok tt).

Definition raise {A} (e : exn) : M A := ([], Raise e).

Definition lift {A} (r : result A) : M A := ([], r).

(** [try: m except <class>: pass], where [caught] tells the exceptions of
    the class. *)
Definition try_except_pass (m : M unit) (caught : exn → bool) : M unit :=
  match m with
  | (tr, Raise e) => if caught e then (tr, Ok tt) else (tr, Raise e)
  | other => other
  end.

(** [for x in l: body(x)]. *)
Fixpoint for_each {A} (l : list A) (body : A → M unit) : M unit :=
  match l with
  | [] => ret tt
  | x :: rest => bind (body x) (λ _, for_each rest body)
  end.

(** A generator whose elements come in batches, each batch produced by a
    suspended computation that runs when the consumer reaches it. *)
Definition Generator (A : Type) : Type := list (M (list A)).

(** [for x in gen: body(x)]. *)
Fixpoint for_each_gen {A} (gen : Generator A) (body : A → M unit) : M unit :=
  match gen with
  | [] => ret tt
  | batch :: rest =>
      bind batch (λ xs,
      bind (for_each xs body) (λ _, for_each_gen rest body))
  end.

End Model.

Arguments RawDatapoint : clear implicits.
Arguments Point : clear implicits.
Arguments Output : clear implicits.
Arguments event : clear implicits.
Arguments World : clear implicits.
Arguments Data : clear implicits.
Arguments M : clear implicits.
Arguments Generator : clear implicits.

Notation "x <- m ;; k" := (bind m (λ x, k))
  (at level 100, m at next level, right associativity, only parsing).

Section Program.

Context {value : Type}.
Variable U : Util.
Variable W : World value.

(** ** [get_metrics] *)

(** The [while True] loop with its variables [buf] and [next_token]; every
    iteration uses one unit of fuel, and a loop that has none left ends as
    [OutOfFuel]. *)
Fixpoint get_metrics_loop (fuel : nat) (region : string)
    (list_metrics : option string → ResultSet)
    (buf : list Metric) (token : option string)
  : M value (list Metric) :=
  match fuel with
  | O => lift OutOfFuel
  | S fuel' =>
      (* [if next_token:] chooses between the two call forms *)
      let request := if Py.truthy_opt token then token else None in
      _ <- emit (EvListMetrics region request) ;;
      let page := list_metrics request in
      let buf := buf ++ items page in
      if negb (Py.truthy_opt (next_token page))
      then ret buf
      else get_metrics_loop fuel' region list_metrics buf (next_token page)
  end.

Definition get_metrics (fuel : nat) (region : string) : M value (list Metric) :=
  match cloudwatch_connect W region with
  | None => raise (Exception ["Failed to connect to region: " +:+ region])
  | Some list_metrics => get_metrics_loop fuel region list_metrics [] None
  end.

(** ** [get_metric_statistics] *)

(** The inner function [f]. *)
Definition f_datapoint (metric : Metric) (statistics : string)
    (datapoint : RawDatapoint value) : result (Data value) :=
  let t := from_datetime_tzlocal U (Timestamp datapoint) in
  match stat_values datapoint !! statistics with
  | Some v => Ok (metric, statistics, v, t)
  | None => Raise (KeyError statistics)
  end.

(** [map(f, datapoints)] of Python 2: the whole list is built at once and
    the first exception ends it. *)
Fixpoint map_result {A B} (f : A → result B) (l : list A) : result (list B) :=
  match l with
  | [] => Ok []
  | x :: rest =>
      result_bind (f x) (λ y,
      result_bind (map_result f rest) (λ ys, Ok (y :: ys)))
  end.

Definition get_metric_statistics (metric : Metric)
    (start_time end_time : RichDateTime) (statistics : string)
    (unit : option string) (period : Z) : M value (list (Data value)) :=
  let start_utc := to_utc U start_time in
  let end_utc := to_utc U end_time in
  _ <- emit (EvQuery metric start_utc end_utc statistics unit period) ;;
  datapoints <- lift (of_sum (metric_query W metric start_utc end_utc
                                statistics unit period)) ;;
  lift (map_result (f_datapoint metric statistics) datapoints).

(** ** [get_data] *)

Definition Param : Type :=
  Metric * RichDateTime * RichDateTime * string * option string * Z.

(** The generator [params], as the list of its elements. *)
Definition get_data_params (metrics : list Metric)
    (statistics_list : list string) (start end_ : RichDateTime)
    (p : timedelta) : list Param :=
  m ← metrics; s ← statistics_list; [(m, start, end_, s, None, seconds p)].

Definition call_get_metric_statistics (param : Param)
  : M value (list (Data value)) :=
  let '(m, start, end_, s, unit, period) := param in
  get_metric_statistics m start end_ s unit period.

(** [get_data] builds the [timedelta] when it is called and returns the
    generator; a query runs when the consumer reaches its parameters. *)
Definition get_data (metrics : list Metric) (statistics_list : list string)
    (start end_ : RichDateTime) (period_in_min : Z)
  : result (Generator value (Data value)) :=
  result_bind (timedelta_minutes period_in_min) (λ p,
  let params := get_data_params metrics statistics_list start end_ p in
  Ok (call_get_metric_statistics <$> params)).

(** ** [get_ec2_names] *)

Definition get_ec2_names (region : string) : M value (gmap string string) :=
  match ec2_connect W region with
  | None => raise (AttributeError "'NoneType' object has no attribute 'get_all_instances'")
  | Some reservations =>
      _ <- emit (EvGetAllInstances region) ;;
      let instances := r ← reservations; instances r in
      ret (Py.dict
             (x ← instances;
              match instance_tags x !! "Name" with
              | Some n => if Py.truthy n then [(instance_id x, n)] else []
              | None => []
              end))
  end.

(** ** [print_data] *)

Definition print_data (data : Data value) (ec2_names : gmap string string)
  : M value unit :=
  let '(m, s, v, t) := data in
  emit (EvPrint (OutData (metric_to_tag m s ec2_names) v
                         (epoch U (to_local U t)))).

(** ** [write_data_to_influxdb] *)

(** [".".join(m.dimensions[d])]: joining a plain string joins its
    characters. *)
Definition join_dimension (v : DimValue) : string :=
  Py.join "." (iter_value v).

(** [m.dimensions[d]]; a key of the dict is always found. *)
Definition dimension_value (m : Metric) (d : string) : DimValue :=
  default (DimList []) (Py.dict (dimensions m) !! d).

(** The dict literal of the tags: a later key replaces an equal earlier
    one. *)
Definition point_tags (s ns region d joined : string) : gmap string string :=
  <[d := joined]> (<["region" := region]> (<["namespace" := ns]>
    (<["statistic" := s]> ∅))).

Definition json_body (m : Metric) (s : string) (v : value)
    (t : RichDateTime) (region d : string) : list (Point value) :=
  [ {| measurement := name m;
       tags := point_tags s (namespace m) region d
                 (join_dimension (dimension_value m d));
       time := epoch U t;
       fields := {[ "value" := v ]} |} ].

Definition write_data_to_influxdb (region : string) (data : Data value)
    (ec2_names : gmap string string) (debug : bool) : M value unit :=
  let '(m, s, v, t) := data in
  let keys := (dimensions m).*1 in
  _ <- (if debug then
          _ <- emit (EvPrint (OutDebugHead (name m) (epoch U (to_local U t)) v)) ;;
          _ <- emit (EvPrint (OutDebugStatistic s)) ;;
          _ <- emit (EvPrint (OutDebugNamespace (namespace m))) ;;
          _ <- for_each keys (λ d,
                 emit (EvPrint (OutDebugDimension d
                         (join_dimension (dimension_value m d))))) ;;
          emit (EvPrint OutDebugNewline)
        else ret tt) ;;
  for_each keys (λ d,
    emit (EvWritePoints (json_body m s v t region d) "s")).

(** ** [main] *)

Definition statistics_list : list string := ["Average"; "Sum"].

(** [except influxdb.exceptions.InfluxDBClientError]. *)
Definition is_InfluxDBClientError (e : exn) : bool :=
  match e with InfluxDBClientError _ _ => true | _ => false end.

Definition call_create_database (dbname : string) : M value unit :=
  _ <- emit (EvCreateDatabase dbname) ;;
  match create_database W dbname with
  | Some e => raise e
  | None => ret tt
  end.

(** [options] is what [parse_args()] returned (line 192).  The option
    parser leaves the program on a command line it refuses, so [main] goes
    on only with options it accepted; for [opt_output] these are its two
    choices, graphite-text and influxdb. *)
Definition main (fuel : nat) (options : Options) : M value Z :=
  (* calculate time range *)
  window <- lift (get_time_range U (now W) (opt_time options)
                    (opt_interval options)) ;;
  let '(start, end_) := window in
  (* get metrics list *)
  metrics <- get_metrics fuel (opt_region options) ;;
  let query_params := m ← metrics; s ← statistics_list; [(m, s)] in
  (* get ec2 names resolver *)
  ec2_names <- (if opt_resolve options
                then get_ec2_names (opt_region options) else ret ∅) ;;
  _ <- (if opt_check options then
          _ <- emit (EvPrint (OutStart start)) ;;
          _ <- emit (EvPrint (OutEnd end_)) ;;
          _ <- emit (EvPrint (OutPeriod (opt_period options))) ;;
          _ <- emit (EvPrint (OutNames ec2_names)) ;;
          for_each query_params (λ q,
            emit (EvPrint (OutWillCollect (metric_to_tag q.1 q.2 ec2_names))))
        else if decide (opt_output options = "graphite-text") then
          gen <- lift (get_data metrics statistics_list start end_
                         (opt_period options)) ;;
          for_each_gen gen (λ data, print_data data ec2_names)
        else if decide (opt_output options = "influxdb") then
          _ <- try_except_pass
                 (call_create_database (opt_influxdb_database options))
                 is_InfluxDBClientError ;;
          gen <- lift (get_data metrics statistics_list start end_
                         (opt_period options)) ;;
          for_each_gen gen (λ data,
            write_data_to_influxdb (opt_region options) data ec2_names false)
        else raise (Exception ["Invalid output option"; opt_output options])) ;;
  ret 0.

End Program.

Arguments get_metrics_loop {value} fuel region list_metrics buf token.

(** ** Notions used by the properties *)

(** The components [metric_to_tag] emits for one item of
    [sorted(metric.dimensions.items())]. *)
Definition dimension_components (ec2_names : gmap string string)
    (x : string * DimValue) : list string :=
  tag_component ec2_names <$> iter_value x.2.

(** Every component of a joined tag costs its length and one separator. *)
Definition weight (l : list string) : nat :=
  sum_list_with (λ s, S (String.length s)) l.

(** The example metric of the specification. *)
Definition cpu_metric : Metric :=
  mk_metric "us-east-1" "AWS/EC2" "CPUUtilization"
            [("InstanceId", DimList ["i-1234"])].

(** The wall-clock reading of 1970-01-01 00:00:00. *)
Definition epoch_ticks : Z := 719162 * 86400 * 1000000.

(** The helpers of [util] for a process whose local time is UTC: the
    conversions keep the reading, the epoch counts whole seconds from 1970,
    and no time string parses. *)
Definition utc_util : Util := {|
  strptime := λ _, inl (ValueError "time data does not match format");
  to_utc := λ t, t;
  to_local := λ t, t;
  epoch := λ t, (ticks t - epoch_ticks) / 1000000;
  from_datetime_tzlocal := λ dt, {| ticks := ticks dt; tz := Some tzlocal |};
  mod_origin := epoch_ticks
|}.

(** 2026-11-04 12:34:56.789, local time. *)
Definition example_now : RichDateTime :=
  {| ticks := 63929392496789000; tz := Some tzlocal |}.

(** A catalog served in pages: [page_chain list_metrics request pages] says
    that asking with [request] and then with each continuation token in turn
    yields [pages], the last of which carries no token.  A token counts the
    way the source tests it: [None] and the empty string are no token. *)
Inductive page_chain (list_metrics : option string → ResultSet)
  : option string → list ResultSet → Prop :=
  | chain_last request :
      Py.truthy_opt (next_token (list_metrics request)) = false →
      page_chain list_metrics request [list_metrics request]
  | chain_next request pages :
      Py.truthy_opt (next_token (list_metrics request)) = true →
      page_chain list_metrics (next_token (list_metrics request)) pages →
      page_chain list_metrics request (list_metrics request :: pages).

(** The tokens of the requests that fetch [pages], the first request being
    made with [request]. *)
Fixpoint chain_requests (request : option string) (pages : list ResultSet)
  : list (option string) :=
  match pages with
  | [] => []
  | page :: rest => request :: chain_requests (next_token page) rest
  end.

(** A catalog of three pages A, B and C: the first request gets page A and
    the token of B, the token of B gets page B and the token of C, and the
    token of C gets page C and no token. *)
Definition metric_A : Metric := mk_metric "us-east-1" "AWS/EC2" "A" [].
Definition metric_B : Metric := mk_metric "us-east-1" "AWS/EC2" "B" [].
Definition metric_C : Metric := mk_metric "us-east-1" "AWS/EC2" "C" [].

Definition three_pages (token : option string) : ResultSet :=
  match token with
  | None => {| items := [metric_A]; next_token := Some "B" |}
  | Some t =>
      if decide (t = "B") then {| items := [metric_B]; next_token := Some "C" |}
      else {| items := [metric_C]; next_token := None |}
  end.

(** A world for the examples: the three-page catalog, one datapoint per
    query, no EC2 instances, and a database that is created without error.
    Values are integers here. *)
Definition example_datapoint : RawDatapoint Z :=
  {| Timestamp := {| ticks := 63929390400000000; tz := None |};
     stat_values := {[ "Average" := 1; "Sum" := 5 ]} |}.

Definition example_world : World Z := {|
  now := example_now;
  cloudwatch_connect := λ _, Some three_pages;
  metric_query := λ _ _ _ _ _ _, inr [example_datapoint];
  ec2_connect := λ _, Some [];
  create_database := λ _, None
|}.

(** *** Reading a trace *)

(** The [write_points] calls of a trace: the body and the time precision. *)
Definition write_calls {value} (tr : list (event value))
  : list (list (Point value) * string) :=
  tr ≫= λ e, match e with
             | EvWritePoints body precision => [(body, precision)]
             | _ => []
             end.

(** The statistics queries of a trace: the metric and the statistic. *)
Definition queried_pairs {value} (tr : list (event value))
  : list (Metric * string) :=
  tr ≫= λ e, match e with EvQuery m _ _ s _ _ => [(m, s)] | _ => [] end.

(** What a trace printed. *)
Definition outputs {value} (tr : list (event value)) : list (Output value) :=
  tr ≫= λ e, match e with EvPrint out => [out] | _ => [] end.

Definition is_statistics_query {value} (e : event value) : bool :=
  match e with EvQuery _ _ _ _ _ _ => true | _ => false end.

(** The calls of the two sinks: a line of [print_data], and what
    [write_data_to_influxdb] and the database set-up before it do. *)
Definition is_sink_call {value} (e : event value) : bool :=
  match e with
  | EvCreateDatabase _ | EvWritePoints _ _ => true
  | EvPrint (OutData _ _ _)
  | EvPrint (OutDebugHead _ _ _)
  | EvPrint (OutDebugStatistic _)
  | EvPrint (OutDebugNamespace _)
  | EvPrint (OutDebugDimension _ _)
  | EvPrint OutDebugNewline => true
  | _ => false
  end.

(** The calls that fetch the catalog and the instance names. *)
Definition is_setup_call {value} (e : event value) : bool :=
  match e with EvListMetrics _ _ | EvGetAllInstances _ => true | _ => false end.

(** An event that is neither a statistics query nor a call of a sink. *)
Definition quiet {value} (e : event value) : Prop :=
  is_statistics_query e = false ∧ is_sink_call e = false.





(** The tags the check mode announced. *)
Definition collected {value} (tr : list (event value)) : list string :=
  tr ≫= λ e, match e with EvPrint (OutWillCollect tag) => [tag] | _ => [] end.

(** The metric and the statistic of a parameter tuple of [get_data]. *)
Definition param_pair (param : Param) : Metric * string :=
  let '(m, _, _, s, _, _) := param in (m, s).

(** Does [pat] occur in [s]? *)
Fixpoint contains (pat s : string) : bool :=
  String.prefix pat s
  || match s with
     | EmptyString => false
     | String _ rest => contains pat rest
     end.

(** The failure the specification lets the program ignore: the client error
    with which InfluxDB answers the creation of a database that exists. *)
Definition means_already_exists (e : exn) : bool :=
  match e with
  | InfluxDBClientError content _ => contains "exists" content
  | _ => false
  end.

(** The same world with a database whose creation succeeds. *)
Definition database_created {value} (W : World value) : World value := {|
  now := now W;
  cloudwatch_connect := cloudwatch_connect W;
  metric_query := metric_query W;
  ec2_connect := ec2_connect W;
  create_database := λ _, None
|}.

(** The same world with a database whose creation fails with [e]. *)
Definition database_fails {value} (W : World value) (e : exn) : World value := {|
  now := now W;
  cloudwatch_connect := cloudwatch_connect W;
  metric_query := metric_query W;
  ec2_connect := ec2_connect W;
  create_database := λ _, Some e
|}.

(** The command line without arguments, with [--check], and with
    [--output influxdb]. *)
Definition default_options : Options := {|
  opt_region := "us-east-1";
  opt_time := None;
  opt_interval := 60;
  opt_period := 5;
  opt_resolve := false;
  opt_check := false;
  opt_output := "graphite-text";
  opt_influxdb_database := "cloudwatch"
|}.

Definition check_options : Options := {|
  opt_region := "us-east-1";
  opt_time := None;
  opt_interval := 60;
  opt_period := 5;
  opt_resolve := false;
  opt_check := true;
  opt_output := "graphite-text";
  opt_influxdb_database := "cloudwatch"
|}.

Definition influxdb_options : Options := {|
  opt_region := "us-east-1";
  opt_time := None;
  opt_interval := 60;
  opt_period := 5;
  opt_resolve := false;
  opt_check := false;
  opt_output := "influxdb";
  opt_influxdb_database := "cloudwatch"
|}.

Definition already_exists_error : exn :=
  InfluxDBClientError "database already exists" (Some 500).

Definition unauthorized_error : exn :=
  InfluxDBClientError "authorization failed" (Some 401).

(** The last stage of [main], from [if options.check:] on, with the window,
    the catalog and the name table in hand (see [main_stages]). *)
Definition output_stage U {value} (W : World value) (options : Options)
    (start end_ : RichDateTime) (metrics : list Metric)
    (ec2_names : gmap string string) : M value unit :=
  let query_params := m ← metrics; s ← statistics_list; [(m, s)] in
  if opt_check options then
    _ <- emit (EvPrint (OutStart start)) ;;
    _ <- emit (EvPrint (OutEnd end_)) ;;
    _ <- emit (EvPrint (OutPeriod (opt_period options))) ;;
    _ <- emit (EvPrint (OutNames ec2_names)) ;;
    for_each query_params (λ q,
      emit (EvPrint (OutWillCollect (metric_to_tag q.1 q.2 ec2_names))))
  else if decide (opt_output options = "graphite-text") then
    gen <- lift (get_data U W metrics statistics_list start end_
                   (opt_period options)) ;;
    for_each_gen gen (λ data, print_data U data ec2_names)
  else if decide (opt_output options = "influxdb") then
    _ <- try_except_pass
           (call_create_database W (opt_influxdb_database options))
           is_InfluxDBClientError ;;
    gen <- lift (get_data U W metrics statistics_list start end_
                   (opt_period options)) ;;
    for_each_gen gen (λ data,
      write_data_to_influxdb U (opt_region options) data ec2_names false)
  else raise (Exception ["Invalid output option"; opt_output options]).

(** *** More example worlds *)

(** 2026-11-04 12:00, local time, and a [util] that parses the one time
    string that names it. *)
Definition example_noon : RichDateTime :=
  {| ticks := 63929390400000000; tz := Some tzlocal |}.

Definition noon_util : Util := {|
  strptime := λ s,
    if decide (s = "202611041200") then inr example_noon
    else inl (ValueError "time data does not match format");
  to_utc := λ t, t;
  to_local := λ t, t;
  epoch := λ t, (ticks t - epoch_ticks) / 1000000;
  from_datetime_tzlocal := λ dt, {| ticks := ticks dt; tz := Some tzlocal |};
  mod_origin := epoch_ticks
|}.

(** The command line [--time 202611041200] and [--time yesterday]. *)
Definition noon_options : Options := {|
  opt_region := "us-east-1";
  opt_time := Some "202611041200";
  opt_interval := 60;
  opt_period := 5;
  opt_resolve := false;
  opt_check := false;
  opt_output := "graphite-text";
  opt_influxdb_database := "cloudwatch"
|}.

Definition yesterday_options : Options := {|
  opt_region := "us-east-1";
  opt_time := Some "yesterday";
  opt_interval := 60;
  opt_period := 5;
  opt_resolve := false;
  opt_check := false;
  opt_output := "graphite-text";
  opt_influxdb_database := "cloudwatch"
|}.

(** A world in which no CloudWatch client can be had. *)
Definition offline_world : World Z := {|
  now := example_now;
  cloudwatch_connect := λ _, None;
  metric_query := λ _ _ _ _ _ _, inr [example_datapoint];
  ec2_connect := λ _, Some [];
  create_database := λ _, None
|}.

(** A catalog whose every page carries a continuation token. *)
Definition endless_pages (token : option string) : ResultSet :=
  {| items := [metric_A]; next_token := Some "more" |}.

Definition endless_world : World Z := {|
  now := example_now;
  cloudwatch_connect := λ _, Some endless_pages;
  metric_query := λ _ _ _ _ _ _, inr [example_datapoint];
  ec2_connect := λ _, Some [];
  create_database := λ _, None
|}.

(** The order [sorted] puts the items of a dict in: by key. *)
Definition key_le {A} (x y : string * A) : Prop := String.le x.1 y.1.

Definition dot : ascii := "."%char.

(** Two ways to name the same instance. *)
Definition by_instance_metric : Metric :=
  mk_metric "us-east-1" "AWS/EC2" "CPUUtilization"
            [("InstanceId", DimList ["i-1234"]); ("Zone", DimList ["a"])].

Definition by_host_metric : Metric :=
  mk_metric "us-east-1" "AWS/EC2" "CPUUtilization"
            [("Zone", DimList ["a"]); ("Host", DimList ["i-1234"])].

(** A world whose datapoints carry the Average only. *)
Definition average_datapoint : RawDatapoint Z :=
  {| Timestamp := {| ticks := 63929390400000000; tz := None |};
     stat_values := {[ "Average" := 1 ]} |}.

Definition average_only_world : World Z := {|
  now := example_now;
  cloudwatch_connect := λ _, Some three_pages;
  metric_query := λ _ _ _ _ _ _, inr [average_datapoint];
  ec2_connect := λ _, Some [];
  create_database := λ _, None
|}.

(** The instances of all reservations, as [get_ec2_names] lists them. *)
Definition all_instances (reservations : list Reservation) : list Instance :=
  r ← reservations; instances r.

(** The name an instance contributes to the table: its Name tag when that
    is present and not empty. *)
Definition instance_name (x : Instance) : option string :=
  match instance_tags x !! "Name" with
  | Some n => if Py.truthy n then Some n else None
  | None => None
  end.

(** A region with three instances: a named one, one without a Name tag and
    one whose Name tag is empty. *)
Definition web_instance : Instance :=
  {| instance_id := "i-1234"; instance_tags := {[ "Name" := "web-1" ]} |}.
Definition bare_instance : Instance :=
  {| instance_id := "i-5678"; instance_tags := {[ "Role" := "db" ]} |}.
Definition blank_instance : Instance :=
  {| instance_id := "i-9abc"; instance_tags := {[ "Name" := "" ]} |}.

Definition fleet_world : World Z := {|
  now := example_now;
  cloudwatch_connect := λ _, Some three_pages;
  metric_query := λ _ _ _ _ _ _, inr [example_datapoint];
  ec2_connect := λ _, Some [ {| instances := [web_instance; bare_instance] |};
                             {| instances := [blank_instance] |} ];
  create_database := λ _, None
|}.

(** *** The events of a complete run *)

(** The line [print_data] prints for a datapoint. *)
Definition text_line U {value} (ec2_names : gmap string string)
    (x : Data value) : event value :=
  let '(m, s, v, t) := x in
  EvPrint (OutData (metric_to_tag m s ec2_names) v (epoch U (to_local U t))).

(** The write calls [write_data_to_influxdb] makes for a datapoint. *)
Definition point_writes U {value} (region : string) (x : Data value)
  : list (event value) :=
  let '(m, s, v, t) := x in
  (λ d, EvWritePoints (json_body U m s v t region d) "s") <$> (dimensions m).*1.

(** The queries for [pairs] over one window and period, each followed at
    once by what the sink does with its datapoints. *)
Definition query_stream U {value} (start end_ : RichDateTime) (period : Z)
    (data : Metric → string → list (Data value))
    (sink : Data value → list (event value))
    (pairs : list (Metric * string)) : list (event value) :=
  pairs ≫= λ q,
    EvQuery q.1 (to_utc U start) (to_utc U end_) q.2 None period
    :: (data q.1 q.2 ≫= sink).

(** A world in which the Sum queries fail. *)
Definition sum_fails_world : World Z := {|
  now := example_now;
  cloudwatch_connect := λ _, Some three_pages;
  metric_query := λ _ _ _ s _ _,
    if decide (s = "Sum") then inl (BotoServerError "Throttling")
    else inr [example_datapoint];
  ec2_connect := λ _, Some [];
  create_database := λ _, None
|}.

(** The events of InfluxDB and of EC2. *)
Definition is_database_call {value} (e : event value) : bool :=
  match e with EvCreateDatabase _ | EvWritePoints _ _ => true | _ => false end.

Definition is_print {value} (e : event value) : bool :=
  match e with EvPrint _ => true | _ => false end.

Definition is_instance_listing {value} (e : event value) : bool :=
  match e with EvGetAllInstances _ => true | _ => false end.

(** The datapoints the example world answers a query with, as tuples. *)
Definition example_data (m : Metric) (s : string) : list (Data Z) :=
  [(m, s, if decide (s = "Average") then 1 else 5,
    {| ticks := 63929390400000000; tz := Some tzlocal |})].

(** The window of the example runs: 11:00 to 12:00 on 2026-11-04. *)
Definition example_start : RichDateTime :=
  {| ticks := 63929386800000000; tz := Some tzlocal |}.

(** What the specification asks of one character of the chosen token: a
    slash becomes an underscore, any other character stays. *)
Definition sanitize_char (c : ascii) : ascii :=
  if decide (c = slash) then underscore else c.

(** A disk metric of the CloudWatch monitoring scripts: its dimension values
    are a lone slash and a path. *)
Definition disk_metric : Metric :=
  mk_metric "us-east-1" "System/Linux" "DiskSpaceUtilization"
            [("MountPath", DimList ["/"]);
             ("Filesystem", DimList ["/dev/xvda1"])].

(** *** The sink and a client that may refuse a write *)

(** [write_data_to_influxdb] with the answer of [client.write_points] made
    explicit: [write_points body precision] is the exception the call
    raises, if any.  A raised exception leaves the loop, as nothing in the
    function catches it.  [write_data_to_influxdb] above is this function
    for a client that accepts every write. *)
Definition write_data_to_influxdb_client U {value}
    (write_points : list (Point value) → string → option exn)
    (region : string) (data : Data value)
    (ec2_names : gmap string string) (debug : bool) : M value unit :=
  let '(m, s, v, t) := data in
  let keys := (dimensions m).*1 in
  _ <- (if debug then
          _ <- emit (EvPrint (OutDebugHead (name m) (epoch U (to_local U t)) v)) ;;
          _ <- emit (EvPrint (OutDebugStatistic s)) ;;
          _ <- emit (EvPrint (OutDebugNamespace (namespace m))) ;;
          _ <- for_each keys (λ d,
                 emit (EvPrint (OutDebugDimension d
                         (join_dimension (dimension_value m d))))) ;;
          emit (EvPrint OutDebugNewline)
        else ret tt) ;;
  for_each keys (λ d,
    _ <- emit (EvWritePoints (json_body U m s v t region d) "s") ;;
    match write_points (json_body U m s v t region d) "s" with
    | Some e => raise e
    | None => ret tt
    end).

(** The one-record body the sink builds for an item of the dimensions: the
    item's key is tagged with the item's own value(s). *)
Definition dimension_record U {value} (m : Metric) (s : string) (v : value)
    (t : RichDateTime) (region : string) (kv : string * DimValue)
  : list (Point value) :=
  [ {| measurement := name m;
       tags := point_tags s (namespace m) region kv.1
                 (Py.join "." (iter_value kv.2));
       time := epoch U t;
       fields := {[ "value" := v ]} |} ].

(** A metric with three dimension keys, and a client that refuses the
    records of an auto scaling group. *)
Definition three_dimension_metric : Metric :=
  mk_metric "us-east-1" "AWS/EC2" "CPUUtilization"
            [("InstanceId", DimList ["i-1234"]);
             ("AutoScalingGroupName", DimList ["web"]);
             ("Zone", DimList ["a"])].

Definition refusing_client (body : list (Point Z)) (precision : string)
  : option exn :=
  match body with
  | [point] =>
      if decide (is_Some (tags point !! "AutoScalingGroupName"))
      then Some (InfluxDBServerError "write failed")
      else None
  | _ => None
  end.

(** * Properties *)

(** ** Python strings *)

Lemma replace_no_old old new s :
  old ≠ new → Py.occurs old (Py.replace old new s) = false.
Proof.
  intros Hne. induction s as [|c s IH]; simpl; [done|].
  destruct (decide (c = old)) as [->|Hc].
  - rewrite decide_False by congruence. exact IH.
  - rewrite decide_False by done. exact IH.
Qed.

Lemma replace_length old new s :
  String.length (Py.replace old new s) = String.length s.
Proof. induction s as [|c s IH]; simpl; [done|by rewrite IH]. Qed.

Lemma length_app_string (s1 s2 : string) :
  String.length (s1 +:+ s2) = (String.length s1 + String.length s2)%nat.
Proof.
  induction s1 as [|c s1 IH]; [done|].
  change (S (String.length (s1 +:+ s2))
          = S (String.length s1 + String.length s2)).
  by rewrite IH.
Qed.

Lemma join_cons_cons sep x y l :
  Py.join sep (x :: y :: l) = x +:+ sep +:+ Py.join sep (y :: l).
Proof. reflexivity. Qed.

(** The length of a dot-joined list is its weight less the separator the
    last component does not have. *)
Lemma join_weight l :
  l ≠ [] → S (String.length (Py.join "." l)) = weight l.
Proof.
  induction l as [|x [|y l] IH]; intros Hne; [done| |].
  - unfold weight. simpl. lia.
  - specialize (IH ltac:(done)).
    rewrite join_cons_cons, !length_app_string.
    change (weight (x :: y :: l)) with (S (String.length x) + weight (y :: l))%nat.
    rewrite <- IH. simpl. lia.
Qed.

Lemma weight_app l1 l2 : weight (l1 ++ l2) = (weight l1 + weight l2)%nat.
Proof. apply sum_list_with_app. Qed.

Lemma chars_length s : length (Py.chars s) = String.length s.
Proof. induction s; simpl; congruence. Qed.

Lemma chars_single s : String.length s = 1%nat → Py.chars s = [s].
Proof. destruct s as [|c [|c' s]]; simpl; intros; by simplify_eq. Qed.

(** ** Sorting the dimensions *)

Lemma insert_item_fmap {A B} (f : A → B) (kv : string * A) l :
  Py.insert_item (prod_map id f kv) (prod_map id f <$> l)
  = prod_map id f <$> Py.insert_item kv l.
Proof.
  induction l as [|kv' l IH]; csimpl; [done|].
  destruct (String.leb kv.1 kv'.1); csimpl; [done|]. by rewrite IH.
Qed.

(** Sorting looks at the keys only, so it commutes with any change of the
    values. *)
Lemma sorted_items_fmap {A B} (f : A → B) (l : list (string * A)) :
  Py.sorted_items (prod_map id f <$> l) = prod_map id f <$> Py.sorted_items l.
Proof.
  induction l as [|kv l IH]; csimpl; [done|].
  unfold Py.sorted_items in *. csimpl. rewrite IH. apply insert_item_fmap.
Qed.

Lemma insert_item_perm {A} (kv : string * A) l :
  Py.insert_item kv l ≡ₚ kv :: l.
Proof.
  induction l as [|kv' l IH]; simpl; [done|].
  destruct (String.leb kv.1 kv'.1); [done|].
  rewrite IH. apply Permutation_swap.
Qed.

Lemma sorted_items_perm {A} (l : list (string * A)) : Py.sorted_items l ≡ₚ l.
Proof.
  induction l as [|kv l IH]; [done|].
  unfold Py.sorted_items in *. simpl. by rewrite insert_item_perm, IH.
Qed.

(** ** [metric_to_tag] *)

Lemma foldl_extend {A} (g : A → list string) (l : list A) (buf : list string) :
  foldl (λ buf x, buf ++ g x) buf l = buf ++ (l ≫= g).
Proof.
  revert buf. induction l as [|x l IH]; intros buf; csimpl.
  - by rewrite app_nil_r.
  - by rewrite IH, app_assoc.
Qed.

(** The tag is the dot-joined list of region, statistic, namespace
    segments, the components of the dimensions in key order, and the
    metric name. *)
Lemma metric_to_tag_components metric statistics ec2_names :
  metric_to_tag metric statistics ec2_names
  = Py.join "." ([region_name (region (connection metric)); statistics]
                 ++ Py.split slash (namespace metric)
                 ++ (Py.sorted_items (dimensions metric)
                       ≫= dimension_components ec2_names)
                 ++ [name metric]).
Proof.
  unfold metric_to_tag. cbv zeta. rewrite foldl_extend.
  f_equal. simpl. by rewrite <- !app_assoc.
Qed.

(** The components depend on the dimensions through the strings each value
    iterates to. *)
Lemma components_iter ec2_names (dims : list (string * DimValue)) :
  Py.sorted_items dims ≫= dimension_components ec2_names
  = Py.sorted_items (prod_map id iter_value <$> dims)
      ≫= (λ x, tag_component ec2_names <$> x.2).
Proof. rewrite sorted_items_fmap, list_fmap_bind. done. Qed.

Lemma components_weight ec2_names (dims : list (string * DimValue)) :
  weight (Py.sorted_items dims ≫= dimension_components ec2_names)
  = sum_list_with (λ x, weight (dimension_components ec2_names x)) dims.
Proof.
  rewrite <- (sum_list_with_Permutation_proper _ _ _ (sorted_items_perm dims)).
  induction (Py.sorted_items dims) as [|x l IH]; [done|].
  rewrite bind_cons, weight_app, IH. done.
Qed.

(** C3: for the metric AWS/EC2 CPUUtilization of region us-east-1 with the
    dimension InstanceId = [i-1234] and the statistic Average, the tag is
    us-east-1.Average.AWS.EC2.i-1234.CPUUtilization with an empty
    resolution table and us-east-1.Average.AWS.EC2.web-1.CPUUtilization
    with a table that maps i-1234 to web-1. *)
Theorem metric_to_tag_cpu_example :
  metric_to_tag cpu_metric "Average" ∅
  = "us-east-1.Average.AWS.EC2.i-1234.CPUUtilization"
  ∧ metric_to_tag cpu_metric "Average" {[ "i-1234" := "web-1" ]}
    = "us-east-1.Average.AWS.EC2.web-1.CPUUtilization".
Proof. split; vm_compute; reflexivity. Qed.

Example tag_component_a_b : tag_component ∅ "a/b" = "a_b".
Proof. reflexivity. Qed.

Lemma tag_component_no_slash ec2_names s :
  Py.occurs slash (tag_component ec2_names s) = false.
Proof.
  unfold tag_component. case_decide; [reflexivity|].
  by apply replace_no_old.
Qed.

Lemma replace_get old new s i :
  String.get i (Py.replace old new s)
  = (λ c, if decide (c = old) then new else c) <$> String.get i s.
Proof.
  revert i. induction s as [|c s IH]; intros i; [done|].
  destruct i as [|i]; simpl; [done|]. apply IH.
Qed.

(** C4: metric_to_tag renders a dimension value that is the lone separator
    "/" as the token "root"; for any other value the component is the
    chosen token (the resolved name, or the value itself) character by
    character, with every "/" replaced by "_" and every other character
    kept, so it has the token's length and holds no slash; and these
    components, one per value and in the order of the keys, are what the
    tag carries between the namespace and the metric name. *)
Theorem tag_component_sanitized ec2_names s :
  tag_component ec2_names "/" = "root"
  ∧ (s ≠ "/" →
     String.length (tag_component ec2_names s)
     = String.length (default s (ec2_names !! s))
     ∧ ∀ i, String.get i (tag_component ec2_names s)
            = sanitize_char <$> String.get i (default s (ec2_names !! s)))
  ∧ Py.occurs slash (tag_component ec2_names s) = false
  ∧ (∀ r ns n st (dims : list (string * list string)),
       metric_to_tag (mk_metric r ns n (prod_map id DimList <$> dims)) st
         ec2_names
       = Py.join "." ([r; st] ++ Py.split slash ns
                      ++ (Py.sorted_items dims
                            ≫= λ x, tag_component ec2_names <$> x.2)
                      ++ [n]))
  ∧ metric_to_tag disk_metric "Average" ∅
    = "us-east-1.Average.System.Linux._dev_xvda1.root.DiskSpaceUtilization".
Proof.
  split_and!.
  - reflexivity.
  - intros Hs. unfold tag_component. rewrite decide_False by done.
    split; [apply replace_length|]. intros i. apply replace_get.
  - apply tag_component_no_slash.
  - intros r ns n st dims. rewrite metric_to_tag_components. simpl.
    by rewrite sorted_items_fmap, list_fmap_bind.
  - vm_compute. reflexivity.
Qed.

(** Where the resolution table does not apply, every character of a
    string costs at least two in the joined tag: itself (or "root") and a
    separator. *)
Lemma weight_chars_unresolved (ec2_names : gmap string string) s :
  (∀ c, c ∈ Py.chars s → ec2_names !! c = None) →
  (2 * String.length s ≤ weight (tag_component ec2_names <$> Py.chars s))%nat.
Proof.
  induction s as [|c s IH]; intros Hnone; [done|].
  csimpl. unfold weight in *. csimpl.
  specialize (IH (λ c' Hc', Hnone c' (list_elem_of_further _ _ _ Hc'))).
  assert (1 ≤ String.length (tag_component ec2_names (String c "")))%nat; [|lia].
  unfold tag_component. case_decide; [simpl; lia|].
  rewrite (Hnone (String c "")) by apply list_elem_of_here. simpl. lia.
Qed.

Lemma weight_single_unresolved (ec2_names : gmap string string) s :
  ec2_names !! s = None → s ≠ "/" →
  weight [tag_component ec2_names s] = S (String.length s).
Proof.
  intros Hnone Hs. unfold weight, tag_component. simpl.
  rewrite decide_False, Hnone by done. simpl.
  by rewrite replace_length.
Qed.

(** C9 (as amended): a dimension value given as a plain string is iterated
    character by character, one tag component per character, each resolved
    and sanitized on its own; a one-character string gives the tag of the
    one-element list that holds it, and no other string does when the
    resolution table knows neither the string nor any of its characters
    (as with the empty table). *)
Theorem string_dimension_per_character r ns n st k s l1 l2
    (ec2_names : gmap string string) :
  let m_str := mk_metric r ns n (l1 ++ (k, DimStr s) :: l2) in
  let m_list := mk_metric r ns n (l1 ++ (k, DimList [s]) :: l2) in
  metric_to_tag (mk_metric r ns n [(k, DimStr s)]) st ec2_names
  = Py.join "." ([r; st] ++ Py.split slash ns
                 ++ (tag_component ec2_names <$> Py.chars s) ++ [n])
  ∧ length (Py.chars s) = String.length s
  ∧ (String.length s = 1%nat →
     metric_to_tag m_str st ec2_names = metric_to_tag m_list st ec2_names)
  ∧ (ec2_names !! s = None →
     (∀ c, c ∈ Py.chars s → ec2_names !! c = None) →
     metric_to_tag m_str st ec2_names = metric_to_tag m_list st ec2_names →
     String.length s = 1%nat).
Proof.
  intros m_str m_list. split_and!.
  - rewrite metric_to_tag_components. simpl.
    unfold dimension_components. simpl. by rewrite app_nil_r.
  - apply chars_length.
  - intros Hlen. rewrite !metric_to_tag_components. simpl.
    rewrite !components_iter, !fmap_app. csimpl.
    unfold prod_map at 2 5. simpl. by rewrite (chars_single s Hlen).
  - intros Hs Hchars Heq.
    apply (f_equal (λ t, S (String.length t))) in Heq.
    rewrite !metric_to_tag_components, !join_weight in Heq by done.
    simpl in Heq. rewrite !weight_app, !components_weight in Heq.
    rewrite !sum_list_with_app in Heq. simpl in Heq.
    assert (weight (dimension_components ec2_names (k, DimStr s))
            = weight [tag_component ec2_names s]) as Hw
      by (unfold weight at 2; simpl; lia).
    destruct (decide (s = "/")) as [->|Hne]; [done|].
    pose proof (weight_chars_unresolved ec2_names s Hchars) as Hge.
    rewrite weight_single_unresolved in Hw by done.
    change (dimension_components ec2_names (k, DimStr s))
      with (tag_component ec2_names <$> Py.chars s) in Hw.
    destruct s as [|c [|c' s]]; [done|done|]. simpl in *. lia.
Qed.

(** C9 (as stated) fails: with a resolution table that knows "ab", "a" and
    "b", the two-character string "ab" gives the same tag as the list
    ["ab"]. *)
Lemma string_dimension_resolved_alike :
  String.length "ab" = 2%nat
  ∧ metric_to_tag (mk_metric "r" "ns" "n" [("k", DimStr "ab")]) "Average"
      {[ "ab" := "x.y"; "a" := "x"; "b" := "y" ]}
    = "r.Average.ns.x.y.n"
  ∧ metric_to_tag (mk_metric "r" "ns" "n" [("k", DimList ["ab"])]) "Average"
      {[ "ab" := "x.y"; "a" := "x"; "b" := "y" ]}
    = "r.Average.ns.x.y.n".
Proof. split_and!; vm_compute; reflexivity. Qed.

(** ** Durations and the time window *)

Lemma timedelta_minutes_seconds minutes d :
  timedelta_minutes minutes = Ok d → seconds d = (minutes * 60) mod 86400.
Proof.
  unfold timedelta_minutes. case_match; intros; by simplify_eq.
Qed.

Lemma timedelta_minutes_total minutes d :
  timedelta_minutes minutes = Ok d →
  total_microseconds d = minutes * 60 * 1000000.
Proof.
  unfold timedelta_minutes. case_match; intros; simplify_eq.
  unfold total_microseconds. simpl.
  pose proof (Z.div_mod (minutes * 60) 86400). lia.
Qed.

Lemma timedelta_minutes_ok minutes :
  Z.abs minutes ≤ 999999999 * 1440 →
  ∃ d, timedelta_minutes minutes = Ok d.
Proof.
  intros Hm. unfold timedelta_minutes.
  assert (Z.abs (minutes * 60 / 86400) ≤ max_delta_days) as Hd.
  { unfold max_delta_days.
    assert (-(999999999) ≤ minutes * 60 / 86400 ≤ 999999999); [|lia].
    split.
    - apply Z.div_le_lower_bound; lia.
    - apply Z.div_le_upper_bound; lia. }
  apply Z.leb_le in Hd. rewrite Hd. eauto.
Qed.

Lemma at_ticks_ok t zone :
  0 ≤ t < max_ticks → at_ticks t zone = Ok {| ticks := t; tz := zone |}.
Proof.
  intros [H0 H1]. unfold at_ticks, in_range.
  apply Z.leb_le in H0. apply Z.ltb_lt in H1. by rewrite H0, H1.
Qed.

(** The query period of a whole-day aggregation, as a helper for C1: the
    seconds field of the duration wraps at one day. *)
Lemma get_data_period U {value} (W : World value) metrics stats start end_ minutes :
  Z.abs minutes ≤ 999999999 * 1440 →
  get_data U W metrics stats start end_ minutes
  = Ok (call_get_metric_statistics U W
          <$> (m ← metrics; s ← stats;
               [(m, start, end_, s, None, (minutes * 60) mod 86400)])).
Proof.
  intros Hm. unfold get_data.
  destruct (timedelta_minutes_ok minutes Hm) as [d Hd]. rewrite Hd. simpl.
  unfold get_data_params. by rewrite (timedelta_minutes_seconds _ _ Hd).
Qed.

Lemma get_metric_statistics_trace U {value} (W : World value)
    m start end_ s unit period :
  (get_metric_statistics U W m start end_ s unit period).1
  = [EvQuery m (to_utc U start) (to_utc U end_) s unit period].
Proof.
  unfold get_metric_statistics. simpl.
  destruct (metric_query W m _ _ s unit period) as [e|dps]; simpl; [done|].
  by destruct (map_result (f_datapoint U m s) dps).
Qed.

(** C1 (the code at the claim's own example): with a period of 1440
    minutes the query of get_data is issued with a period of 0 seconds, not
    the 86400 seconds the claim states. *)
Theorem get_data_one_day_period U {value} (W : World value) m s start end_ :
  get_data U W [m] [s] start end_ 1440
  = Ok [get_metric_statistics U W m start end_ s None 0]
  ∧ (get_metric_statistics U W m start end_ s None 0).1
    = [EvQuery m (to_utc U start) (to_utc U end_) s None 0]
  ∧ 1440 * 60 = 86400.
Proof.
  split_and!; [reflexivity|apply get_metric_statistics_trace|reflexivity].
Qed.

(** Below one day the period is the minutes times sixty. *)
Lemma get_data_period_below_one_day U {value} (W : World value)
    metrics stats start end_ minutes :
  0 ≤ minutes < 1440 →
  get_data U W metrics stats start end_ minutes
  = Ok (call_get_metric_statistics U W
          <$> (m ← metrics; s ← stats;
               [(m, start, end_, s, None, minutes * 60)])).
Proof.
  intros Hm. rewrite get_data_period by lia.
  by rewrite (Z.mod_small (minutes * 60) 86400) by lia.
Qed.

(** C5 (as amended): with no time string and an interval > 0 whose window
    start is not before the earliest datetime, get_time_range returns the
    window that ends at now truncated to the interval boundary, at or before
    now, and starts exactly one interval earlier. *)
Theorem get_time_range_latest_interval U (now : RichDateTime) time_str interval :
  let width := interval * 60 * 1000000 in
  let truncated := ticks now - (ticks now - mod_origin U) mod width in
  Py.truthy_opt time_str = false →
  0 < interval →
  0 ≤ ticks now < max_ticks →
  0 ≤ truncated - width →
  ∃ start end_,
    get_time_range U now time_str interval = Ok (start, end_)
    ∧ ticks end_ - ticks start = width
    ∧ ticks end_ ≤ ticks now
    ∧ ticks end_ = truncated
    ∧ ticks start = truncated - width.
Proof.
  intros width truncated Hstr Hpos Hnow Hstart.
  assert (0 < width) as Hw by (unfold width; lia).
  pose proof (Z.mod_pos_bound (ticks now - mod_origin U) width Hw) as Hmod.
  fold truncated in Hstart.
  assert (truncated ≤ ticks now) as Hle by (unfold truncated; lia).
  assert (Z.abs interval ≤ 999999999 * 1440) as Hrep.
  { unfold max_ticks, width in *. lia. }
  destruct (timedelta_minutes_ok interval Hrep) as [d Hd].
  pose proof (timedelta_minutes_total _ _ Hd) as Htotal. fold width in Htotal.
  unfold get_time_range. rewrite Hd, Hstr. simpl.
  unfold rich_mod. rewrite Htotal, decide_False by lia. fold truncated.
  rewrite at_ticks_ok by lia. simpl.
  unfold sub. simpl. rewrite Htotal, at_ticks_ok by lia. simpl.
  unfold add, from_datetime. simpl. rewrite Htotal.
  replace (truncated - width + width) with truncated by lia.
  rewrite at_ticks_ok by lia. simpl.
  eexists _, _. split; [reflexivity|]. simpl. lia.
Qed.

(** C5 (as stated) fails: an interval of 1440000000000 minutes is a billion
    days, more than a timedelta holds, and get_time_range raises
    OverflowError instead of returning a window. *)
Lemma get_time_range_overflow :
  0 < 1440000000000
  ∧ get_time_range utc_util example_now None 1440000000000
    = Raise (OverflowError "days; must have magnitude <= 999999999").
Proof. split; [lia|reflexivity]. Qed.

Lemma get_time_range_latest_interval_witness :
  ∃ start end_,
    get_time_range utc_util example_now None 60 = Ok (start, end_)
    ∧ ticks end_ - ticks start = 60 * 60 * 1000000
    ∧ ticks end_ ≤ ticks example_now
    ∧ ticks end_ = 63929390400000000
    ∧ ticks start = 63929390400000000 - 60 * 60 * 1000000.
Proof.
  apply (get_time_range_latest_interval utc_util example_now None 60);
    [reflexivity | lia | vm_compute; split; [discriminate | reflexivity]
    | vm_compute; discriminate].
Defined.

(** ** The catalog *)

Lemma chain_requests_length request pages :
  length (chain_requests request pages) = length pages.
Proof.
  revert request. induction pages as [|page pages IH]; intros; simpl; [done|].
  by rewrite IH.
Qed.

Lemma get_metrics_loop_chain {value} fuel region list_metrics pages buf token :
  page_chain list_metrics token pages →
  (if Py.truthy_opt token then token else None) = token →
  (length pages ≤ fuel)%nat →
  @get_metrics_loop value fuel region list_metrics buf token
  = (EvListMetrics region <$> chain_requests token pages,
     Ok (buf ++ (pages ≫= items))).
Proof.
  intros Hchain. revert fuel buf.
  induction Hchain as [request Hlast|request pages Hmore Hchain IH];
    intros fuel buf Hreq Hfuel;
    (destruct fuel as [|fuel]; [simpl in Hfuel; lia|]);
    simpl; rewrite Hreq.
  - rewrite Hlast. simpl. by rewrite app_nil_r.
  - rewrite Hmore. simpl.
    rewrite IH; [|by rewrite Hmore|simpl in Hfuel; lia].
    by rewrite <- app_assoc.
Qed.

(** C6: when the catalog is served as a chain of pages, get_metrics makes
    one list request per page (the first without a token, each later one
    with the token the page before carried), stops at the page without a
    token, and returns the items of all pages in page order. *)
Theorem get_metrics_all_pages {value} (W : World value) region list_metrics
    pages fuel :
  cloudwatch_connect W region = Some list_metrics →
  page_chain list_metrics None pages →
  (length pages ≤ fuel)%nat →
  get_metrics W fuel region
  = (EvListMetrics region <$> chain_requests None pages, Ok (pages ≫= items))
  ∧ length (EvListMetrics (value := value) region <$> chain_requests None pages)
    = length pages.
Proof.
  intros Hconnect Hchain Hfuel. split.
  - unfold get_metrics. rewrite Hconnect.
    by rewrite (get_metrics_loop_chain fuel region list_metrics pages [] None).
  - by rewrite length_fmap, chain_requests_length.
Qed.

Lemma three_pages_chain :
  page_chain three_pages None
    [three_pages None; three_pages (Some "B"); three_pages (Some "C")].
Proof.
  apply chain_next; [reflexivity|].
  apply (chain_next three_pages (Some "B")); [reflexivity|].
  apply (chain_last three_pages (Some "C")). reflexivity.
Qed.

(** The three pages A, B, C are fetched with exactly three requests. *)
Lemma get_metrics_three_pages :
  get_metrics example_world 3 "us-east-1"
  = (EvListMetrics "us-east-1" <$> [None; Some "B"; Some "C"],
     Ok [metric_A; metric_B; metric_C])
  ∧ length (EvListMetrics (value := Z) "us-east-1" <$> [None; Some "B"; Some "C"])
    = 3%nat.
Proof.
  apply (get_metrics_all_pages example_world "us-east-1" three_pages
           [three_pages None; three_pages (Some "B"); three_pages (Some "C")] 3);
    [reflexivity | apply three_pages_chain | simpl; lia].
Defined.

(** ** The monad *)

Lemma bind_trace {value A B} (m : M value A) (f : A → M value B) :
  (bind m f).1
  = m.1 ++ match m.2 with Ok a => (f a).1 | _ => [] end.
Proof.
  destruct m as [tr [a| |]]; simpl; [|by rewrite app_nil_r..].
  by destruct (f a).
Qed.

Lemma bind_outcome {value A B} (m : M value A) (f : A → M value B) :
  (bind m f).2
  = match m.2 with
    | Ok a => (f a).2
    | Raise e => Raise e
    | OutOfFuel => OutOfFuel
    end.
Proof. destruct m as [tr [a| |]]; simpl; [|done..]. by destruct (f a). Qed.

Lemma bind_pair {value A B} tr (a : A) (f : A → M value B) :
  bind (tr, Ok a) f = (tr ++ (f a).1, (f a).2).
Proof. simpl. by destruct (f a). Qed.

Lemma for_each_emit {value A} (l : list A) (ev : A → event value) :
  for_each l (λ x, emit (ev x)) = (ev <$> l, Ok tt).
Proof.
  induction l as [|x l IH]; [done|].
  simpl. by rewrite IH.
Qed.

(** ** The time-series sink *)





(** ** Traces without queries and sink calls *)

Lemma Forall_bind {value A B} (P : event value → Prop)
    (m : M value A) (f : A → M value B) :
  Forall P m.1 → (∀ a, m.2 = Ok a → Forall P (f a).1) →
  Forall P (bind m f).1.
Proof.
  intros Hm Hf. rewrite bind_trace. apply Forall_app. split; [done|].
  destruct (m.2) as [a| |]; [by apply Hf|constructor..].
Qed.

Lemma get_metrics_loop_setup {value} fuel region list_metrics buf token :
  Forall (λ e, is_setup_call e = true)
    (@get_metrics_loop value fuel region list_metrics buf token).1.
Proof.
  revert buf token. induction fuel as [|fuel IH]; intros buf token.
  - constructor.
  - cbn [get_metrics_loop]. apply Forall_bind; [by repeat constructor|].
    intros _ _. case_match; [constructor|apply IH].
Qed.

Lemma get_metrics_setup {value} (W : World value) fuel region :
  Forall (λ e, is_setup_call e = true) (get_metrics W fuel region).1.
Proof.
  unfold get_metrics. case_match; [apply get_metrics_loop_setup|constructor].
Qed.

Lemma get_ec2_names_setup {value} (W : World value) region :
  Forall (λ e, is_setup_call e = true) (get_ec2_names W region).1.
Proof.
  unfold get_ec2_names. case_match; simpl; repeat constructor.
Qed.

Lemma setup_quiet {value} (tr : list (event value)) :
  Forall (λ e, is_setup_call e = true) tr → Forall quiet tr.
Proof.
  intros Hsetup. eapply Forall_impl; [exact Hsetup|].
  intros e He. by destruct e.
Qed.

Lemma setup_not_collected {value} (tr : list (event value)) :
  Forall (λ e, is_setup_call e = true) tr → collected tr = [].
Proof.
  induction 1 as [|e tr He _ IH]; [done|].
  unfold collected in *. rewrite bind_cons, IH. by destruct e.
Qed.

Lemma get_metrics_quiet {value} (W : World value) fuel region :
  Forall quiet (get_metrics W fuel region).1.
Proof. apply setup_quiet, get_metrics_setup. Qed.

Lemma get_ec2_names_quiet {value} (W : World value) region :
  Forall quiet (get_ec2_names W region).1.
Proof. apply setup_quiet, get_ec2_names_setup. Qed.

Lemma no_queries {value} (tr : list (event value)) :
  Forall (λ e, is_statistics_query e = false) tr → queried_pairs tr = [].
Proof.
  induction 1 as [|e tr Hq _ IH]; [done|].
  unfold queried_pairs in *. rewrite bind_cons, IH.
  by destruct e.
Qed.

Lemma quiet_no_queries {value} (tr : list (event value)) :
  Forall quiet tr → queried_pairs tr = [].
Proof.
  intros Hquiet. apply no_queries.
  eapply Forall_impl; [exact Hquiet|]. by intros e [Hq _].
Qed.

Lemma for_each_Forall {value A} (P : event value → Prop) (l : list A)
    (body : A → M value unit) :
  (∀ x, Forall P (body x).1) → Forall P (for_each l body).1.
Proof.
  intros Hbody. induction l as [|x l IH]; [constructor|].
  cbn [for_each]. by apply Forall_bind.
Qed.

(** C7: in check mode no statistics query is issued and no sink is called,
    whatever the catalog holds and however the run ends; when the window,
    the catalog and the name table are obtained, the run prints the window,
    the period, the name table and the tag of every metric/statistic pair,
    and returns 0. *)
Theorem check_mode_dry_run U {value} (W : World value) fuel o :
  opt_check o = true →
  Forall quiet (main U W fuel o).1
  ∧ ∀ start end_ tr1 metrics tr2 names,
      get_time_range U (now W) (opt_time o) (opt_interval o)
      = Ok (start, end_) →
      get_metrics W fuel (opt_region o) = (tr1, Ok metrics) →
      (if opt_resolve o then get_ec2_names W (opt_region o) else ret ∅)
      = (tr2, Ok names) →
      main U W fuel o
      = (tr1 ++ tr2
         ++ (EvPrint <$> ([OutStart start; OutEnd end_;
                           OutPeriod (opt_period o); OutNames names]
                          ++ (OutWillCollect
                                <$> (m ← metrics; s ← ["Average"; "Sum"];
                                     [metric_to_tag m s names])))),
         Ok 0).
Proof.
  intros Hcheck. split.
  - unfold main. apply Forall_bind; [constructor|].
    intros [start end_] _. apply Forall_bind; [apply get_metrics_quiet|].
    intros metrics _. apply Forall_bind.
    { destruct (opt_resolve o); [apply get_ec2_names_quiet|constructor]. }
    intros names _. apply Forall_bind; [|intros; constructor].
    rewrite Hcheck. simpl. rewrite for_each_emit. simpl.
    repeat (constructor; [by split|]).
    apply Forall_fmap, Forall_true. by intros ?.
  - intros start end_ tr1 metrics tr2 names Hrange Hmetrics Hnames.
    unfold main. rewrite Hrange. simpl. rewrite Hmetrics. simpl.
    rewrite Hnames, Hcheck. simpl. rewrite for_each_emit. simpl.
    rewrite app_nil_r. do 7 f_equal. clear.
    induction metrics as [|m metrics IH]; [done|]. csimpl. by rewrite IH.
Qed.

Lemma check_mode_dry_run_witness :
  opt_check check_options = true
  ∧ Forall quiet (main utc_util example_world 3 check_options).1.
Proof.
  split; [reflexivity|].
  exact (proj1 (check_mode_dry_run utc_util example_world 3 check_options
                  eq_refl)).
Defined.

(** ** The statistics *)

Lemma queried_pairs_app {value} (tr1 tr2 : list (event value)) :
  queried_pairs (tr1 ++ tr2) = queried_pairs tr1 ++ queried_pairs tr2.
Proof. apply bind_app. Qed.

Lemma queried_pairs_bind {value A B} (m : M value A) (f : A → M value B) :
  queried_pairs (bind m f).1
  = queried_pairs m.1
    ++ match m.2 with Ok a => queried_pairs (f a).1 | _ => [] end.
Proof. rewrite bind_trace, queried_pairs_app. by destruct (m.2). Qed.

Lemma for_each_no_queries {value A} (l : list A) (body : A → M value unit) :
  (∀ x, queried_pairs (body x).1 = []) →
  queried_pairs (for_each l body).1 = [].
Proof.
  intros Hbody. induction l as [|x l IH]; [done|].
  cbn [for_each]. rewrite queried_pairs_bind, Hbody. by destruct (body x).2.
Qed.

Lemma param_pairs metrics stats start end_ p :
  param_pair <$> get_data_params metrics stats start end_ p
  = (m ← metrics; s ← stats; [(m, s)]).
Proof.
  unfold get_data_params.
  induction metrics as [|m metrics IH]; [done|].
  csimpl. rewrite fmap_app, IH. f_equal. clear IH.
  induction stats as [|st stats IHs]; [done|]. csimpl. by rewrite IHs.
Qed.

(** Consuming the generator of [get_data] issues the queries in the order of
    the parameters: all of them when the loop completes, the first ones when
    it is cut short. *)
Lemma for_each_gen_queries U {value} (W : World value) (params : list Param)
    (body : Data value → M value unit) :
  (∀ x, queried_pairs (body x).1 = []) →
  queried_pairs
    (for_each_gen (call_get_metric_statistics U W <$> params) body).1
    `prefix_of` (param_pair <$> params)
  ∧ ((for_each_gen (call_get_metric_statistics U W <$> params) body).2 = Ok tt →
     queried_pairs
       (for_each_gen (call_get_metric_statistics U W <$> params) body).1
     = param_pair <$> params).
Proof.
  intros Hbody. induction params as [|param params [IHp IHe]].
  - split; [by apply prefix_nil|done].
  - destruct param as [[[[[m start] end_] s] unit] period].
    set (rest := for_each_gen (call_get_metric_statistics U W <$> params) body)
      in *.
    change (for_each_gen (call_get_metric_statistics U W
                            <$> (m, start, end_, s, unit, period) :: params) body)
      with (bind (get_metric_statistics U W m start end_ s unit period)
              (λ xs, bind (for_each xs body) (λ _, rest))).
    change (param_pair <$> (m, start, end_, s, unit, period) :: params)
      with ((m, s) :: (param_pair <$> params)).
    rewrite bind_outcome, !queried_pairs_bind, get_metric_statistics_trace.
    change (queried_pairs [EvQuery m (to_utc U start) (to_utc U end_) s unit period])
      with [(m, s)].
    destruct (get_metric_statistics U W m start end_ s unit period).2
      as [xs| |]; simpl; [|split; [apply prefix_cons, prefix_nil|done]..].
    rewrite bind_outcome, queried_pairs_bind, for_each_no_queries by done.
    destruct (for_each xs body).2 as [[]| |]; simpl;
      [|split; [apply prefix_cons, prefix_nil|done]..].
    split; [by apply prefix_cons|]. intros Hok. by rewrite IHe.
Qed.

Lemma print_data_no_queries U {value} (ec2_names : gmap string string)
    (x : Data value) :
  queried_pairs (print_data U x ec2_names).1 = [].
Proof. by destruct x as [[[m s] v] t]. Qed.

Lemma write_data_no_queries U {value} region ec2_names debug (x : Data value) :
  queried_pairs (write_data_to_influxdb U region x ec2_names debug).1 = [].
Proof.
  destruct x as [[[m s] v] t]. apply no_queries.
  unfold write_data_to_influxdb. apply Forall_bind.
  - destruct debug; [|constructor].
    repeat (apply Forall_bind; [by repeat constructor|intros _ _]).
    apply Forall_bind; [|by repeat constructor].
    apply for_each_Forall. by repeat constructor.
  - intros _ _. apply for_each_Forall. by repeat constructor.
Qed.

Lemma main_stages U {value} (W : World value) fuel o :
  main U W fuel o
  = (window <- lift (get_time_range U (now W) (opt_time o) (opt_interval o)) ;;
     metrics <- get_metrics W fuel (opt_region o) ;;
     ec2_names <- (if opt_resolve o then get_ec2_names W (opt_region o)
                   else ret ∅) ;;
     _ <- output_stage U W o window.1 window.2 metrics ec2_names ;;
     ret 0).
Proof.
  unfold main.
  by destruct (get_time_range U (now W) (opt_time o) (opt_interval o))
    as [[start end_]| |].
Qed.

Lemma create_step_trace {value} (W : World value) dbname caught :
  (try_except_pass (call_create_database W dbname) caught).1
  = [EvCreateDatabase dbname].
Proof.
  unfold call_create_database. simpl.
  destruct (create_database W dbname) as [e|]; simpl; [|done].
  by destruct (caught e).
Qed.

Lemma collected_will_collect {value A} (g : A → string) (l : list A) :
  collected ((λ q, EvPrint (value := value) (OutWillCollect (g q))) <$> l)
  = g <$> l.
Proof.
  induction l as [|x l IH]; [done|].
  unfold collected in *. csimpl. by rewrite IH.
Qed.

(** Fetching and consuming the data issues the queries for the cross
    product of the metrics and the statistics, metric by metric. *)
Lemma get_data_queries U {value} (W : World value) metrics stats start end_
    period (body : Data value → M value unit) :
  (∀ x, queried_pairs (body x).1 = []) →
  queried_pairs
    (gen <- lift (get_data U W metrics stats start end_ period) ;;
     for_each_gen gen body).1
    `prefix_of` (m ← metrics; s ← stats; [(m, s)])
  ∧ ((gen <- lift (get_data U W metrics stats start end_ period) ;;
      for_each_gen gen body).2 = Ok tt →
     queried_pairs
       (gen <- lift (get_data U W metrics stats start end_ period) ;;
        for_each_gen gen body).1
     = (m ← metrics; s ← stats; [(m, s)])).
Proof.
  intros Hbody. rewrite bind_outcome, queried_pairs_bind.
  unfold get_data. destruct (timedelta_minutes period) as [p| |]; simpl;
    [|split; [apply prefix_nil|done]..].
  rewrite <- (param_pairs metrics stats start end_ p).
  by apply for_each_gen_queries.
Qed.

Lemma output_stage_queries U {value} (W : World value) o start end_ metrics
    ec2_names :
  queried_pairs (output_stage U W o start end_ metrics ec2_names).1
    `prefix_of` (m ← metrics; s ← statistics_list; [(m, s)])
  ∧ ((output_stage U W o start end_ metrics ec2_names).2 = Ok tt →
     opt_check o = false →
     queried_pairs (output_stage U W o start end_ metrics ec2_names).1
     = (m ← metrics; s ← statistics_list; [(m, s)]))
  ∧ (opt_check o = true →
     collected (output_stage U W o start end_ metrics ec2_names).1
     = (λ q, metric_to_tag q.1 q.2 ec2_names)
         <$> (m ← metrics; s ← statistics_list; [(m, s)])).
Proof.
  unfold output_stage. destruct (opt_check o).
  - simpl. rewrite for_each_emit. simpl. rewrite ?app_nil_r.
    split_and!; [|done|].
    + rewrite no_queries; [apply prefix_nil|].
      apply Forall_fmap, Forall_true. by intros ?.
    + intros _. apply (collected_will_collect
                         (λ q, metric_to_tag q.1 q.2 ec2_names)).
  - case_decide; [|case_decide].
    + destruct (get_data_queries U W metrics statistics_list start end_
                  (opt_period o) (λ data, print_data U data ec2_names))
        as [Hp He]; [intros; apply print_data_no_queries|].
      split_and!; [done|intros ? _; by apply He|done].
    + destruct (get_data_queries U W metrics statistics_list start end_
                  (opt_period o)
                  (λ data, write_data_to_influxdb U (opt_region o) data
                             ec2_names false))
        as [Hp He]; [intros; apply write_data_no_queries|].
      rewrite bind_outcome, queried_pairs_bind, create_step_trace.
      change (queried_pairs [EvCreateDatabase (opt_influxdb_database o)])
        with (@nil (Metric * string)).
      destruct (try_except_pass _ _).2 as [[]| |]; simpl;
        [|split_and!; [apply prefix_nil|done|done]..].
      split_and!; [done|intros ? _; by apply He|done].
    + simpl. split_and!; [apply prefix_nil|done|done].
Qed.

(** C10: the statistics are the fixed list Average, Sum.  Whatever the
    options and the world, the queries of a run follow the cross product of
    the fetched metrics with Average and Sum, in that order for each metric:
    a run that returns 0 outside check mode has issued exactly these
    queries, a run that ends early a first part of them, and check mode
    announces the tags of exactly these pairs. *)
Theorem statistics_hard_coded U {value} (W : World value) fuel o :
  statistics_list = ["Average"; "Sum"]
  ∧ match (get_metrics W fuel (opt_region o)).2 with
    | Ok metrics =>
        let pairs := m ← metrics; s ← ["Average"; "Sum"]; [(m, s)] in
        queried_pairs (main U W fuel o).1 `prefix_of` pairs
        ∧ ((main U W fuel o).2 = Ok 0 → opt_check o = false →
           queried_pairs (main U W fuel o).1 = pairs)
        ∧ ((main U W fuel o).2 = Ok 0 → opt_check o = true →
           ∃ ec2_names,
             collected (main U W fuel o).1
             = (λ q, metric_to_tag q.1 q.2 ec2_names) <$> pairs)
    | _ => queried_pairs (main U W fuel o).1 = []
    end.
Proof.
  split; [reflexivity|].
  rewrite main_stages.
  pose proof (get_metrics_setup W fuel (opt_region o)) as Hs1.
  destruct (get_metrics W fuel (opt_region o)) as [tr1 r1]. simpl in Hs1.
  destruct (if opt_resolve o then get_ec2_names W (opt_region o) else ret ∅)
    as [tr2 r2] eqn:Hn.
  assert (Forall (λ e, is_setup_call e = true) tr2) as Hs2.
  { destruct (opt_resolve o).
    - pose proof (get_ec2_names_setup W (opt_region o)) as Hs.
      by rewrite Hn in Hs.
    - unfold ret in Hn. simplify_eq. constructor. }
  clear Hn.
  pose proof (quiet_no_queries _ (setup_quiet _ Hs1)) as Hq1.
  pose proof (quiet_no_queries _ (setup_quiet _ Hs2)) as Hq2.
  pose proof (setup_not_collected _ Hs1) as Hc1.
  pose proof (setup_not_collected _ Hs2) as Hc2.
  destruct (get_time_range U (now W) (opt_time o) (opt_interval o))
    as [[start end_]| |]; simpl;
    [|destruct r1; [split_and!; [apply prefix_nil|done|done]|done..]..].
  destruct r1 as [metrics| |]; simpl; [|done..].
  destruct r2 as [ec2_names| |]; simpl;
    [|rewrite queried_pairs_app, Hq1, Hq2;
      split_and!; [apply prefix_nil|done|done]..].
  destruct (output_stage_queries U W o start end_ metrics ec2_names)
    as (Hp & He & Hc).
  destruct (output_stage U W o start end_ metrics ec2_names) as [tr3 r3].
  simpl in Hp, He, Hc.
  assert (queried_pairs (tr1 ++ tr2 ++ tr3) = queried_pairs tr3) as Hq.
  { by rewrite !queried_pairs_app, Hq1, Hq2. }
  assert (collected (tr1 ++ tr2 ++ tr3) = collected tr3) as Hcol.
  { unfold collected in *. by rewrite !bind_app, Hc1, Hc2. }
  destruct r3 as [[]| |]; simpl; rewrite ?app_nil_r, Hq;
    (split_and!; [done|try done..]).
  - intros _. apply He. done.
  - intros _ Hcheck. exists ec2_names. rewrite Hcol. by apply Hc.
Qed.

(** ** Creating the database *)

Lemma create_step_caught {value} (W : World value) dbname e :
  create_database W dbname = Some e →
  try_except_pass (call_create_database W dbname) is_InfluxDBClientError
  = ([EvCreateDatabase dbname],
     if is_InfluxDBClientError e then Ok tt else Raise e).
Proof.
  intros Hcreate. unfold call_create_database. rewrite Hcreate. simpl.
  by destruct (is_InfluxDBClientError e).
Qed.

Lemma create_step_created {value} (W : World value) dbname :
  create_database W dbname = None →
  try_except_pass (call_create_database W dbname) is_InfluxDBClientError
  = ([EvCreateDatabase dbname], Ok tt).
Proof. intros Hcreate. unfold call_create_database. by rewrite Hcreate. Qed.

(** C2 (as amended): when the creation of the database fails, the influxdb
    path ignores the failure if it is an InfluxDBClientError, whatever its
    cause (the run goes on exactly as if the database had been created; the
    failure that means the database already exists is of this class), and
    surfaces a failure of any other class: the run ends with that exception
    right after the creation call, before any query or write. *)
Theorem create_database_client_errors_ignored U {value} (W : World value)
    fuel o e :
  create_database W (opt_influxdb_database o) = Some e →
  (is_InfluxDBClientError e = true →
   main U W fuel o = main U (database_created W) fuel o)
  ∧ (is_InfluxDBClientError e = false →
     opt_check o = false →
     opt_output o = "influxdb" →
     ∀ start end_ tr1 metrics tr2 names,
       get_time_range U (now W) (opt_time o) (opt_interval o)
       = Ok (start, end_) →
       get_metrics W fuel (opt_region o) = (tr1, Ok metrics) →
       (if opt_resolve o then get_ec2_names W (opt_region o) else ret ∅)
       = (tr2, Ok names) →
       main U W fuel o
       = (tr1 ++ tr2 ++ [EvCreateDatabase (opt_influxdb_database o)],
          Raise e))
  ∧ (means_already_exists e = true → is_InfluxDBClientError e = true).
Proof.
  intros Hcreate. split_and!.
  - intros Hclass.
    pose proof (create_step_caught W _ e Hcreate) as Hstep.
    rewrite Hclass in Hstep.
    pose proof (create_step_created (database_created W)
                  (opt_influxdb_database o) eq_refl) as Hstep'.
    unfold main. rewrite Hstep, Hstep'. reflexivity.
  - intros Hclass Hcheck Houtput start end_ tr1 metrics tr2 names
      Hrange Hmetrics Hnames.
    pose proof (create_step_caught W _ e Hcreate) as Hstep.
    rewrite Hclass in Hstep.
    unfold main. rewrite Hrange. simpl. rewrite Hmetrics. simpl.
    rewrite Hnames, Hcheck, Houtput, Hstep. reflexivity.
  - by destruct e.
Qed.

Lemma create_database_client_errors_ignored_witness :
  main utc_util (database_fails example_world already_exists_error) 3
    influxdb_options
  = main utc_util (database_created
                     (database_fails example_world already_exists_error)) 3
      influxdb_options.
Proof.
  exact (proj1 (create_database_client_errors_ignored utc_util
                  (database_fails example_world already_exists_error) 3
                  influxdb_options already_exists_error eq_refl) eq_refl).
Defined.

(** C2 (as stated) fails: a creation refused for missing authorization is
    not the failure that means the database exists, yet it is an
    InfluxDBClientError too and is ignored: the run goes on to the queries
    and returns 0. *)
Lemma create_database_unauthorized_ignored :
  means_already_exists unauthorized_error = false
  ∧ create_database (database_fails example_world unauthorized_error)
      (opt_influxdb_database influxdb_options)
    = Some unauthorized_error
  ∧ (main utc_util (database_fails example_world unauthorized_error) 3
       influxdb_options).2 = Ok 0
  ∧ length (queried_pairs
              (main utc_util (database_fails example_world unauthorized_error)
                 3 influxdb_options).1) = 6%nat.
Proof. split_and!; vm_compute; reflexivity. Qed.

(** A creation that fails with an error of another class ends the run. *)
Example create_database_server_error :
  main utc_util (database_fails example_world (InfluxDBServerError "boom")) 3
    influxdb_options
  = ((EvListMetrics "us-east-1" <$> [None; Some "B"; Some "C"])
     ++ [EvCreateDatabase "cloudwatch"],
     Raise (InfluxDBServerError "boom")).
Proof. vm_compute. reflexivity. Qed.

(** * Further properties of the code *)

(** ** [get_time_range] with a time string *)

(** X1: with a time string that parses to t, the window is [t, t + interval]
    whatever the clock says; the interval is not checked, so a zero or
    negative interval gives a window whose end is at or before its start. *)
Theorem get_time_range_explicit U (now : RichDateTime) s interval t :
  Py.truthy s = true →
  strptime U s = inr t →
  Z.abs interval ≤ 999999999 * 1440 →
  0 ≤ ticks t + interval * 60 * 1000000 < max_ticks →
  get_time_range U now (Some s) interval
  = Ok (t, {| ticks := ticks t + interval * 60 * 1000000; tz := tz t |}).
Proof.
  intros Hs Hparse Hrep Hend.
  destruct (timedelta_minutes_ok interval Hrep) as [d Hd].
  pose proof (timedelta_minutes_total _ _ Hd) as Htotal.
  unfold get_time_range. rewrite Hd. simpl. rewrite Hs, Hparse. simpl.
  unfold add. rewrite Htotal, at_ticks_ok by done. reflexivity.
Qed.

Lemma get_time_range_explicit_witness :
  get_time_range noon_util example_now (Some "202611041200") (-60)
  = Ok (example_noon,
        {| ticks := ticks example_noon + -60 * 60 * 1000000;
           tz := tz example_noon |}).
Proof.
  apply (get_time_range_explicit noon_util example_now "202611041200" (-60)
           example_noon);
    [reflexivity | reflexivity | lia
    | vm_compute; split; [discriminate | reflexivity]].
Defined.

(** X2: a time string that does not parse ends the run with the parser's
    exception before anything else happens: no catalog request, no query,
    no output. *)
Theorem main_time_string_rejected U {value} (W : World value) fuel o s e :
  opt_time o = Some s →
  Py.truthy s = true →
  strptime U s = inl e →
  Z.abs (opt_interval o) ≤ 999999999 * 1440 →
  main U W fuel o = ([], Raise e).
Proof.
  intros Htime Hs Hparse Hrep.
  destruct (timedelta_minutes_ok _ Hrep) as [d Hd].
  unfold main, get_time_range. rewrite Htime, Hd. simpl.
  by rewrite Hs, Hparse.
Qed.

Lemma main_time_string_rejected_witness :
  main utc_util example_world 3 yesterday_options
  = ([], Raise (ValueError "time data does not match format")).
Proof.
  apply (main_time_string_rejected utc_util example_world 3 yesterday_options
           "yesterday" (ValueError "time data does not match format"));
    [reflexivity | reflexivity | reflexivity | vm_compute; discriminate].
Defined.

(** ** [get_metrics] at its edges *)

(** X3: when no client can be had for the region, get_metrics raises
    "Failed to connect to region: <region>" without any request, and a run
    whose time window was computed ends there. *)
Theorem get_metrics_no_client U {value} (W : World value) fuel o window :
  cloudwatch_connect W (opt_region o) = None →
  get_time_range U (now W) (opt_time o) (opt_interval o) = Ok window →
  get_metrics W fuel (opt_region o)
  = ([], Raise (Exception ["Failed to connect to region: " +:+ opt_region o]))
  ∧ main U W fuel o
    = ([], Raise (Exception ["Failed to connect to region: " +:+ opt_region o])).
Proof.
  intros Hconnect Hrange.
  assert (get_metrics W fuel (opt_region o)
          = ([], Raise (Exception ["Failed to connect to region: "
                                   +:+ opt_region o]))) as Hmetrics.
  { unfold get_metrics. by rewrite Hconnect. }
  split; [done|].
  unfold main. rewrite Hrange. destruct window as [start end_]. simpl.
  by rewrite Hmetrics.
Qed.

Lemma get_metrics_no_client_witness :
  get_metrics offline_world 3 "us-east-1"
  = ([], Raise (Exception ["Failed to connect to region: us-east-1"]))
  ∧ main utc_util offline_world 3 default_options
    = ([], Raise (Exception ["Failed to connect to region: us-east-1"])).
Proof.
  apply (get_metrics_no_client utc_util offline_world 3 default_options
           ({| ticks := 63929386800000000; tz := Some tzlocal |},
            {| ticks := 63929390400000000; tz := Some tzlocal |}));
    reflexivity.
Defined.

Lemma get_metrics_loop_endless {value} fuel region list_metrics buf token :
  (∀ request, Py.truthy_opt (next_token (list_metrics request)) = true) →
  (@get_metrics_loop value fuel region list_metrics buf token).2 = OutOfFuel
  ∧ length (@get_metrics_loop value fuel region list_metrics buf token).1
    = fuel.
Proof.
  intros Hmore. revert buf token.
  induction fuel as [|fuel IH]; intros buf token; [done|].
  cbn [get_metrics_loop]. rewrite bind_outcome, bind_trace. simpl.
  rewrite Hmore. simpl.
  destruct (IH (buf ++ items (list_metrics
                                (if Py.truthy_opt token then token else None)))
               (next_token (list_metrics
                              (if Py.truthy_opt token then token else None))))
    as [Hout Hlen].
  by rewrite Hout, Hlen.
Qed.

(** X4: the pagination has no limit of its own: against a catalog whose
    every page carries a token, get_metrics never returns; however many
    iterations it is given, it has made that many requests and is still
    running. *)
Theorem get_metrics_endless {value} (W : World value) fuel region list_metrics :
  cloudwatch_connect W region = Some list_metrics →
  (∀ request, Py.truthy_opt (next_token (list_metrics request)) = true) →
  (get_metrics W fuel region).2 = OutOfFuel
  ∧ length (get_metrics W fuel region).1 = fuel.
Proof.
  intros Hconnect Hmore. unfold get_metrics. rewrite Hconnect.
  by apply get_metrics_loop_endless.
Qed.

Lemma get_metrics_endless_witness :
  (get_metrics endless_world 7 "us-east-1").2 = OutOfFuel
  ∧ length (get_metrics endless_world 7 "us-east-1").1 = 7%nat.
Proof.
  apply (get_metrics_endless endless_world 7 "us-east-1" endless_pages);
    [reflexivity | intros request; reflexivity].
Defined.

(** ** [metric_to_tag]: order, keys, slashes *)

Lemma key_le_trans {A} : Transitive (@key_le A).
Proof. intros x y z. unfold key_le. apply transitivity. Qed.

Lemma key_le_false {A} (x y : string * A) :
  String.leb x.1 y.1 = false → key_le y x.
Proof.
  intros Hle. unfold key_le.
  destruct (total String.le x.1 y.1) as [Hxy|Hyx]; [|done].
  unfold String.le in Hxy. by rewrite Hle in Hxy.
Qed.

Lemma insert_item_Sorted {A} (x : string * A) l :
  Sorted key_le l → Sorted key_le (Py.insert_item x l).
Proof.
  induction l as [|y l IH]; intros Hsorted; simpl.
  - by repeat constructor.
  - destruct (String.leb x.1 y.1) eqn:Hle.
    + constructor; [done|]. constructor. unfold key_le, String.le.
      by rewrite Hle.
    + inversion Hsorted as [|? ? Hl Hhd]; subst.
      constructor; [by apply IH|].
      destruct l as [|z l]; simpl.
      * constructor. by apply key_le_false.
      * destruct (String.leb x.1 z.1); constructor.
        -- by apply key_le_false.
        -- by inversion Hhd.
Qed.

Lemma sorted_items_Sorted {A} (l : list (string * A)) :
  Sorted key_le (Py.sorted_items l).
Proof.
  induction l as [|x l IH]; [constructor|].
  by apply insert_item_Sorted.
Qed.

(** A list of items with distinct keys has one sorted arrangement. *)
Lemma sorted_items_unique {A} (l1 l2 : list (string * A)) :
  StronglySorted key_le l1 → StronglySorted key_le l2 →
  l1 ≡ₚ l2 → NoDup l1.*1 → l1 = l2.
Proof.
  revert l2. induction l1 as [|x l1 IH]; intros l2 Hs1 Hs2 Hperm Hnodup.
  - by apply Permutation_nil_l in Hperm.
  - destruct l2 as [|y l2]; [by apply Permutation_nil_r in Hperm|].
    inversion Hs1 as [|? ? Hs1' Hx]; subst.
    inversion Hs2 as [|? ? Hs2' Hy]; subst.
    apply NoDup_cons in Hnodup as [Hnotin Hnodup].
    assert (x = y) as Hxy.
    { destruct (decide (x.1 = y.1)) as [Hkey|Hkey].
      - assert (y ∈ x :: l1) as Hyin by (rewrite Hperm; left).
        apply elem_of_cons in Hyin as [->|Hyin]; [done|].
        exfalso. apply Hnotin. rewrite Hkey. apply list_elem_of_fmap. eauto.
      - exfalso. apply Hkey.
        assert (x ∈ y :: l2) as Hxin by (rewrite <- Hperm; left).
        assert (y ∈ x :: l1) as Hyin by (rewrite Hperm; left).
        apply elem_of_cons in Hxin as [->|Hxin]; [done|].
        apply elem_of_cons in Hyin as [->|Hyin]; [done|].
        rewrite Forall_forall in Hx, Hy.
        apply (anti_symm String.le); [by apply (Hx y)|by apply (Hy x)]. }
    subst y. f_equal. apply IH; try done.
    by apply Permutation_cons_inv in Hperm.
Qed.

Lemma sorted_items_permutation {A} (l1 l2 : list (string * A)) :
  l1 ≡ₚ l2 → NoDup l1.*1 → Py.sorted_items l1 = Py.sorted_items l2.
Proof.
  intros Hperm Hnodup. apply sorted_items_unique.
  - apply Sorted_StronglySorted; [apply key_le_trans|apply sorted_items_Sorted].
  - apply Sorted_StronglySorted; [apply key_le_trans|apply sorted_items_Sorted].
  - by rewrite !sorted_items_perm.
  - by rewrite sorted_items_perm.
Qed.

(** X5: the tag does not depend on the order in which the dimensions dict
    hands out its items: two metrics that differ only in that order (the
    keys being distinct, as in a dict) get the same tag. *)
Theorem metric_to_tag_order_independent r ns n dims1 dims2 st ec2_names :
  dims1 ≡ₚ dims2 →
  NoDup dims1.*1 →
  metric_to_tag (mk_metric r ns n dims1) st ec2_names
  = metric_to_tag (mk_metric r ns n dims2) st ec2_names.
Proof.
  intros Hperm Hnodup. rewrite !metric_to_tag_components. simpl.
  by rewrite (sorted_items_permutation dims1 dims2).
Qed.

Lemma metric_to_tag_order_independent_witness :
  metric_to_tag
    (mk_metric "us-east-1" "AWS/EC2" "CPUUtilization"
       [("InstanceId", DimList ["i-1234"]); ("AutoScalingGroupName", DimList ["web"])])
    "Average" ∅
  = metric_to_tag
      (mk_metric "us-east-1" "AWS/EC2" "CPUUtilization"
         [("AutoScalingGroupName", DimList ["web"]); ("InstanceId", DimList ["i-1234"])])
      "Average" ∅.
Proof.
  apply (metric_to_tag_order_independent "us-east-1" "AWS/EC2" "CPUUtilization"
           [("InstanceId", DimList ["i-1234"]);
            ("AutoScalingGroupName", DimList ["web"])]
           [("AutoScalingGroupName", DimList ["web"]);
            ("InstanceId", DimList ["i-1234"])]
           "Average" ∅).
  - apply Permutation_swap.
  - compute_done.
Defined.

(** X6: the keys of the dimensions never enter the tag: two metrics whose
    dimension values, taken in the order of their keys, are the same get
    the same tag, whatever the keys are called. *)
Theorem metric_to_tag_ignores_keys r ns n dims1 dims2 st ec2_names :
  (Py.sorted_items dims1).*2 = (Py.sorted_items dims2).*2 →
  metric_to_tag (mk_metric r ns n dims1) st ec2_names
  = metric_to_tag (mk_metric r ns n dims2) st ec2_names.
Proof.
  intros Hvalues. rewrite !metric_to_tag_components. simpl.
  assert (∀ l : list (string * DimValue),
            l ≫= dimension_components ec2_names
            = l.*2 ≫= λ v, tag_component ec2_names <$> iter_value v) as Hsnd.
  { intros l. by rewrite list_fmap_bind. }
  by rewrite !Hsnd, Hvalues.
Qed.

Lemma metric_to_tag_ignores_keys_witness :
  metric_to_tag by_instance_metric "Average" ∅
  = metric_to_tag by_host_metric "Average" ∅.
Proof.
  apply (metric_to_tag_ignores_keys "us-east-1" "AWS/EC2" "CPUUtilization"
           (dimensions by_instance_metric) (dimensions by_host_metric)
           "Average" ∅).
  reflexivity.
Defined.

Lemma occurs_app c (s1 s2 : string) :
  Py.occurs c (s1 +:+ s2) = Py.occurs c s1 || Py.occurs c s2.
Proof.
  induction s1 as [|c' s1 IH]; [done|].
  change (Py.occurs c (String c' (s1 +:+ s2))
          = Py.occurs c (String c' s1) || Py.occurs c s2).
  simpl. by case_decide.
Qed.

Lemma occurs_join c l :
  c ≠ dot →
  Py.occurs c (Py.join "." l) = existsb (Py.occurs c) l.
Proof.
  intros Hc. induction l as [|x [|y l] IH]; [done| |].
  - simpl. by rewrite orb_false_r.
  - rewrite join_cons_cons, !occurs_app, IH.
    change (existsb (Py.occurs c) (x :: y :: l))
      with (Py.occurs c x || existsb (Py.occurs c) (y :: l)).
    f_equal. simpl. by rewrite decide_False by (intros ?; by apply Hc).
Qed.

Lemma split_no_separator sep s :
  existsb (Py.occurs sep) (Py.split sep s) = false.
Proof.
  induction s as [|c s IH]; [done|].
  simpl. case_decide; [done|].
  destruct (Py.split sep s) as [|piece pieces]; simpl in *.
  - by rewrite decide_False.
  - by rewrite decide_False.
Qed.

Lemma components_no_slash ec2_names (l : list (string * DimValue)) :
  existsb (Py.occurs slash) (l ≫= dimension_components ec2_names) = false.
Proof.
  induction l as [|x l IH]; [done|].
  rewrite bind_cons, existsb_app, IH, orb_false_r.
  unfold dimension_components.
  induction (iter_value x.2) as [|s values IHv]; [done|].
  csimpl. by rewrite tag_component_no_slash.
Qed.

(** X7: the tag holds a slash exactly when the region name, the statistic
    or the metric name does: the namespace and the dimension values never
    contribute one, and the metric name is not sanitized. *)
Theorem metric_to_tag_slash metric st ec2_names :
  Py.occurs slash (metric_to_tag metric st ec2_names)
  = Py.occurs slash (region_name (region (connection metric)))
    || Py.occurs slash st
    || Py.occurs slash (name metric).
Proof.
  rewrite metric_to_tag_components, occurs_join by done.
  rewrite !existsb_app, split_no_separator, components_no_slash.
  cbn [existsb orb]. by rewrite !orb_false_r.
Qed.

Lemma split_nonempty sep s : Py.split sep s ≠ [].
Proof. destruct s as [|c s]; simpl; [done|]. by repeat case_match. Qed.

(** Splitting at a character and joining with another replaces the one by
    the other. *)
Lemma join_split_replace sep c s :
  Py.join (String c "") (Py.split sep s) = Py.replace sep c s.
Proof.
  induction s as [|c' s IH]; [done|].
  pose proof (split_nonempty sep s) as Hne.
  simpl. destruct (Py.split sep s) as [|piece pieces]; [done|].
  case_decide.
  - rewrite join_cons_cons. by rewrite IH.
  - destruct pieces as [|piece' pieces].
    + simpl in *. by rewrite IH.
    + rewrite join_cons_cons in *. by rewrite <- IH.
Qed.

Lemma app_string_assoc (s1 s2 s3 : string) :
  (s1 +:+ s2) +:+ s3 = s1 +:+ s2 +:+ s3.
Proof.
  induction s1 as [|c s1 IH]; [done|].
  change (String c ((s1 +:+ s2) +:+ s3) = String c (s1 +:+ s2 +:+ s3)).
  by rewrite IH.
Qed.

Lemma join_app sep l1 l2 :
  l1 ≠ [] → l2 ≠ [] →
  Py.join sep (l1 ++ l2) = Py.join sep l1 +:+ sep +:+ Py.join sep l2.
Proof.
  intros Hl1 Hl2. induction l1 as [|x [|y l1] IH]; [done| |].
  - destruct l2; [done|]. reflexivity.
  - change (Py.join sep (x :: (y :: l1) ++ l2)
            = Py.join sep (x :: y :: l1) +:+ sep +:+ Py.join sep l2).
    change ((y :: l1) ++ l2) with (y :: (l1 ++ l2)).
    rewrite !join_cons_cons.
    change (y :: (l1 ++ l2)) with ((y :: l1) ++ l2).
    rewrite IH by done. by rewrite !app_string_assoc.
Qed.

(** X8: the namespace enters the tag as one piece with every slash turned
    into a dot, between the statistic and the dimension values. *)
Theorem metric_to_tag_namespace metric st ec2_names :
  metric_to_tag metric st ec2_names
  = Py.join "." ([region_name (region (connection metric)); st;
                  Py.replace slash dot (namespace metric)]
                 ++ (Py.sorted_items (dimensions metric)
                       ≫= λ x, tag_component ec2_names <$> iter_value x.2)
                 ++ [name metric]).
Proof.
  rewrite metric_to_tag_components.
  rewrite <- (join_split_replace slash dot (namespace metric)).
  fold (dimension_components ec2_names).
  set (segments := Py.split slash (namespace metric)).
  set (rest := (Py.sorted_items (dimensions metric)
                  ≫= dimension_components ec2_names) ++ [name metric]).
  assert (segments ≠ []) as Hsegments by apply split_nonempty.
  assert (rest ≠ []) as Hrest.
  { unfold rest. by destruct (_ ≫= _). }
  set (r := region_name (region (connection metric))).
  change ([r; st; Py.join (String dot "") segments] ++ rest)
    with (([r; st] ++ [Py.join "." segments]) ++ rest).
  change ([r; st] ++ segments ++ rest) with ([r; st] ++ (segments ++ rest)).
  rewrite (join_app "." [r; st] (segments ++ rest)) by (try done; by destruct segments).
  rewrite (join_app "." segments rest) by done.
  rewrite (join_app "." ([r; st] ++ [Py.join "." segments]) rest) by done.
  rewrite (join_app "." [r; st] [Py.join "." segments]) by done.
  by rewrite !app_string_assoc.
Qed.

(** ** [get_metric_statistics] and [get_data] *)

Lemma map_result_values U {value} m s (dps : list (RawDatapoint value)) vs :
  Forall2 (λ dp v, stat_values dp !! s = Some v) dps vs →
  map_result (f_datapoint U m s) dps
  = Ok (zip_with (λ dp v, (m, s, v, from_datetime_tzlocal U (Timestamp dp)))
          dps vs).
Proof.
  induction 1 as [|dp v dps vs Hv _ IH]; [done|].
  simpl. unfold f_datapoint at 1. rewrite Hv. simpl. by rewrite IH.
Qed.

Lemma map_result_missing_key U {value} m s (dps : list (RawDatapoint value)) dp :
  dp ∈ dps → stat_values dp !! s = None →
  map_result (f_datapoint U m s) dps = Raise (KeyError s).
Proof.
  intros Hin Hnone. induction dps as [|dp' dps IH]; [by apply elem_of_nil in Hin|].
  simpl. unfold f_datapoint at 1.
  destruct (stat_values dp' !! s) as [v|] eqn:Hv; [|done]. simpl.
  apply elem_of_cons in Hin as [->|Hin]; [congruence|].
  by rewrite IH.
Qed.

(** X9: when the query answers and every datapoint carries the requested
    statistic, get_metric_statistics issues that one query, with the window
    converted to UTC, and returns one tuple per datapoint, in the order of
    the answer: the metric, the statistic, the datapoint's value for it and
    its timestamp read as local time. *)
Theorem get_metric_statistics_data U {value} (W : World value)
    m start end_ s unit period dps vs :
  metric_query W m (to_utc U start) (to_utc U end_) s unit period = inr dps →
  Forall2 (λ dp v, stat_values dp !! s = Some v) dps vs →
  get_metric_statistics U W m start end_ s unit period
  = ([EvQuery m (to_utc U start) (to_utc U end_) s unit period],
     Ok (zip_with (λ dp v, (m, s, v, from_datetime_tzlocal U (Timestamp dp)))
           dps vs)).
Proof.
  intros Hquery Hvalues. unfold get_metric_statistics.
  rewrite Hquery. simpl. by rewrite (map_result_values U m s dps vs).
Qed.

Lemma get_metric_statistics_data_witness :
  get_metric_statistics utc_util example_world cpu_metric example_noon
    example_now "Sum" None 300
  = ([EvQuery cpu_metric example_noon example_now "Sum" None 300],
     Ok [(cpu_metric, "Sum", 5,
          {| ticks := 63929390400000000; tz := Some tzlocal |})]).
Proof.
  apply (get_metric_statistics_data utc_util example_world cpu_metric
           example_noon example_now "Sum" None 300 [example_datapoint] [5]);
    [reflexivity | repeat constructor].
Defined.

(** X10: a datapoint without the requested statistic makes
    get_metric_statistics raise KeyError after the query was issued; the
    other datapoints of the answer are lost with it. *)
Theorem get_metric_statistics_missing_key U {value} (W : World value)
    m start end_ s unit period dps dp :
  metric_query W m (to_utc U start) (to_utc U end_) s unit period = inr dps →
  dp ∈ dps →
  stat_values dp !! s = None →
  get_metric_statistics U W m start end_ s unit period
  = ([EvQuery m (to_utc U start) (to_utc U end_) s unit period],
     Raise (KeyError s)).
Proof.
  intros Hquery Hin Hnone. unfold get_metric_statistics.
  rewrite Hquery. simpl. by rewrite (map_result_missing_key U m s dps dp).
Qed.

Lemma get_metric_statistics_missing_key_witness :
  get_metric_statistics utc_util average_only_world cpu_metric example_noon
    example_now "Sum" None 300
  = ([EvQuery cpu_metric example_noon example_now "Sum" None 300],
     Raise (KeyError "Sum")).
Proof.
  apply (get_metric_statistics_missing_key utc_util average_only_world
           cpu_metric example_noon example_now "Sum" None 300
           [average_datapoint] average_datapoint);
    [reflexivity | apply list_elem_of_here | reflexivity].
Defined.

(** X11: whatever the period in minutes, the period get_data passes to the
    queries lies in [0, 86400): it is the minutes times sixty reduced modulo
    one day, so it equals minutes * 60 exactly for 0 <= minutes < 1440, and
    a negative period is passed as a positive one. *)
Theorem get_data_period_wraps U {value} (W : World value)
    metrics stats start end_ minutes :
  Z.abs minutes ≤ 999999999 * 1440 →
  get_data U W metrics stats start end_ minutes
  = Ok (call_get_metric_statistics U W
          <$> (m ← metrics; s ← stats;
               [(m, start, end_, s, None, (minutes * 60) mod 86400)]))
  ∧ 0 ≤ (minutes * 60) mod 86400 < 86400
  ∧ ((minutes * 60) mod 86400 = minutes * 60 ↔ 0 ≤ minutes < 1440).
Proof.
  intros Hrep. split; [|split].
  - by apply get_data_period.
  - apply Z.mod_pos_bound. lia.
  - pose proof (Z.mod_pos_bound (minutes * 60) 86400 ltac:(lia)).
    split; [lia|]. intros. apply Z.mod_small. lia.
Qed.

Lemma get_data_period_wraps_witness :
  get_data utc_util example_world [cpu_metric] ["Average"] example_noon
    example_now (-1)
  = Ok (call_get_metric_statistics utc_util example_world
          <$> [(cpu_metric, example_noon, example_now, "Average", None, 86340)])
  ∧ 0 ≤ (-1 * 60) mod 86400 < 86400
  ∧ ((-1 * 60) mod 86400 = -1 * 60 ↔ 0 ≤ -1 < 1440).
Proof.
  apply (get_data_period_wraps utc_util example_world [cpu_metric] ["Average"]
           example_noon example_now (-1)).
  lia.
Defined.

(** ** Python dicts built from pairs *)

Lemma dict_snoc {A} (l : list (string * A)) kv :
  Py.dict (l ++ [kv]) = <[kv.1 := kv.2]> (Py.dict l).
Proof. unfold Py.dict. by rewrite foldl_app. Qed.

Lemma dict_lookup_Some {A} (l : list (string * A)) k v :
  Py.dict l !! k = Some v → (k, v) ∈ l.
Proof.
  induction l as [|[k' v'] l IH] using rev_ind; [done|].
  rewrite dict_snoc. simpl. intros Hlookup.
  apply elem_of_app. destruct (decide (k' = k)) as [->|Hne].
  - rewrite lookup_insert_eq in Hlookup. simplify_eq. right. left.
  - rewrite lookup_insert_ne in Hlookup by done. left. by apply IH.
Qed.

Lemma dict_lookup_None {A} (l : list (string * A)) k :
  k ∉ l.*1 → Py.dict l !! k = None.
Proof.
  induction l as [|[k' v'] l IH] using rev_ind; [done|].
  rewrite fmap_app, dict_snoc. simpl. intros Hnotin.
  rewrite not_elem_of_app, list_elem_of_singleton in Hnotin.
  destruct Hnotin as [Hl Hk]. rewrite lookup_insert_ne by done. by apply IH.
Qed.

Lemma dict_lookup_NoDup {A} (l : list (string * A)) k v :
  NoDup l.*1 → (k, v) ∈ l → Py.dict l !! k = Some v.
Proof.
  induction l as [|[k' v'] l IH] using rev_ind; [by intros _ ?%elem_of_nil|].
  rewrite fmap_app, dict_snoc. simpl. intros Hnodup Hin.
  apply NoDup_app in Hnodup as (Hl & Hfresh & _).
  apply elem_of_app in Hin as [Hin|Hin].
  - assert (k ≠ k') as Hne.
    { intros ->. apply (Hfresh k'); [|left].
      apply list_elem_of_fmap. by exists (k', v). }
    rewrite lookup_insert_ne by done. by apply IH.
  - apply list_elem_of_singleton in Hin. simplify_eq.
    by rewrite lookup_insert_eq.
Qed.

(** ** [get_ec2_names] *)

Lemma named_pairs_elem (insts : list Instance) k n :
  (k, n) ∈ (x ← insts;
            match instance_tags x !! "Name" with
            | Some n => if Py.truthy n then [(instance_id x, n)] else []
            | None => []
            end)
  ↔ ∃ x, x ∈ insts ∧ instance_id x = k ∧ instance_name x = Some n.
Proof.
  rewrite list_elem_of_bind. unfold instance_name.
  split.
  - intros (x & Hpair & Hx). exists x. split; [done|].
    destruct (instance_tags x !! "Name") as [n'|];
      [|by apply elem_of_nil in Hpair].
    destruct (Py.truthy n'); [|by apply elem_of_nil in Hpair].
    apply list_elem_of_singleton in Hpair. by simplify_eq.
  - intros (x & Hx & Hid & Hname). exists x. split; [|done].
    destruct (instance_tags x !! "Name") as [n'|]; [|done].
    destruct (Py.truthy n'); [|done]. simplify_eq. left.
Qed.

Lemma named_pairs_NoDup (insts : list Instance) :
  NoDup (instance_id <$> insts) →
  NoDup (x ← insts;
         match instance_tags x !! "Name" with
         | Some n => if Py.truthy n then [(instance_id x, n)] else []
         | None => []
         end).*1.
Proof.
  induction insts as [|x insts IH]; [constructor|].
  csimpl. intros [Hfresh Hnodup]%NoDup_cons.
  rewrite fmap_app. apply NoDup_app. split_and!.
  - destruct (instance_tags x !! "Name") as [n|]; [|constructor].
    destruct (Py.truthy n); [|constructor]. apply NoDup_singleton.
  - intros k Hk Hk'. apply Hfresh.
    apply list_elem_of_fmap in Hk' as ([k' n'] & -> & Hin).
    apply named_pairs_elem in Hin as (y & Hy & Hid & _).
    assert (k' = instance_id x) as ->.
    { destruct (instance_tags x !! "Name") as [n|]; [|by apply elem_of_nil in Hk].
      destruct (Py.truthy n); [|by apply elem_of_nil in Hk].
      by apply list_elem_of_singleton in Hk. }
    apply list_elem_of_fmap. by exists y.
  - by apply IH.
Qed.

(** X12: get_ec2_names makes one listing call and returns a table that
    maps instance ids to non-empty Name tags of listed instances only; an
    id none of whose instances has a non-empty Name tag is absent from it,
    and when the ids are distinct every instance with such a tag is
    present. *)
Theorem get_ec2_names_table {value} (W : World value) region reservations :
  ec2_connect W region = Some reservations →
  ∃ names,
    get_ec2_names W region = ([EvGetAllInstances region], Ok names)
    ∧ (∀ k n, names !! k = Some n →
         n ≠ "" ∧ ∃ x, x ∈ all_instances reservations
                       ∧ instance_id x = k
                       ∧ instance_tags x !! "Name" = Some n)
    ∧ (∀ k, (∀ x, x ∈ all_instances reservations → instance_id x = k →
               instance_name x = None) →
         names !! k = None)
    ∧ (NoDup (instance_id <$> all_instances reservations) →
       ∀ x, x ∈ all_instances reservations →
         names !! instance_id x = instance_name x).
Proof.
  intros Hconnect. unfold get_ec2_names. rewrite Hconnect.
  eexists. split; [reflexivity|].
  fold (all_instances reservations). split_and!.
  - intros k n Hlookup. apply dict_lookup_Some, named_pairs_elem in Hlookup
      as (x & Hx & Hid & Hname).
    unfold instance_name in Hname.
    destruct (instance_tags x !! "Name") as [n'|] eqn:Htag; [|done].
    destruct (Py.truthy n') eqn:Htruthy; [|done]. simplify_eq.
    split; [by intros ->|]. by exists x.
  - intros k Hnone. apply dict_lookup_None.
    intros ([k' n] & -> & Hin)%list_elem_of_fmap.
    apply named_pairs_elem in Hin as (x & Hx & Hid & Hname).
    by rewrite (Hnone x Hx Hid) in Hname.
  - intros Hnodup x Hx.
    destruct (instance_name x) as [n|] eqn:Hname.
    + apply dict_lookup_NoDup; [by apply named_pairs_NoDup|].
      apply named_pairs_elem. by exists x.
    + apply dict_lookup_None.
      intros ([k' n] & Hk & Hin)%list_elem_of_fmap. simpl in Hk. subst k'.
      apply named_pairs_elem in Hin as (y & Hy & Hid & Hyname).
      assert (y = x) as ->; [|congruence].
      apply list_elem_of_lookup in Hx as [i Hi].
      apply list_elem_of_lookup in Hy as [j Hj].
      assert (i = j) as ->; [|congruence].
      apply (NoDup_lookup _ i j (instance_id x) Hnodup);
        rewrite list_lookup_fmap; [by rewrite Hi|by rewrite Hj, <- Hid].
Qed.

Lemma get_ec2_names_table_witness :
  ∃ names,
    get_ec2_names fleet_world "us-east-1"
    = ([EvGetAllInstances "us-east-1"], Ok names)
    ∧ names !! "i-1234" = Some "web-1"
    ∧ names !! "i-5678" = None
    ∧ names !! "i-9abc" = None.
Proof.
  destruct (get_ec2_names_table fleet_world "us-east-1"
              [ {| instances := [web_instance; bare_instance] |};
                {| instances := [blank_instance] |} ] eq_refl)
    as (names & Hrun & _ & _ & Hall).
  exists names. split; [exact Hrun|].
  assert (NoDup (instance_id <$> [web_instance; bare_instance; blank_instance]))
    as Hnodup by compute_done.
  change (all_instances _)
    with [web_instance; bare_instance; blank_instance] in Hall.
  split_and!.
  - apply (Hall Hnodup web_instance). left.
  - apply (Hall Hnodup bare_instance). right. left.
  - apply (Hall Hnodup blank_instance). right. right. left.
Defined.

(** ** The time-series sink for any number of dimensions *)

Lemma write_calls_app {value} (tr1 tr2 : list (event value)) :
  write_calls (tr1 ++ tr2) = write_calls tr1 ++ write_calls tr2.
Proof. apply bind_app. Qed.

Lemma write_calls_prints {value} {A} (out : A → Output value) (l : list A) :
  write_calls ((λ x, EvPrint (out x)) <$> l) = [].
Proof.
  induction l as [|x l IH]; [done|]. unfold write_calls in *. csimpl.
  by rewrite IH.
Qed.

Lemma write_calls_writes {value} {A} (body : A → list (Point value))
    (l : list A) :
  write_calls ((λ x, EvWritePoints (body x) "s") <$> l)
  = (λ x, (body x, "s")) <$> l.
Proof.
  induction l as [|x l IH]; [done|]. unfold write_calls in *. csimpl.
  by rewrite IH.
Qed.

Lemma write_data_trace U {value} region (x : Data value) ec2_names :
  write_data_to_influxdb U region x ec2_names false
  = (point_writes U region x, Ok tt).
Proof.
  destruct x as [[[m s] v] t]. unfold write_data_to_influxdb.
  by rewrite for_each_emit.
Qed.

Lemma json_body_own U {value} (m : Metric) s (v : value) t region kv :
  NoDup (dimensions m).*1 →
  kv ∈ dimensions m →
  json_body U m s v t region kv.1 = dimension_record U m s v t region kv.
Proof.
  intros Hnodup Hin. destruct kv as [d dv].
  unfold json_body, dimension_record, join_dimension, dimension_value. simpl.
  by rewrite (dict_lookup_NoDup (dimensions m) d dv Hnodup Hin).
Qed.

(** A loop of calls that are each recorded and then answered: when all are
    accepted the loop makes them all. *)
Lemma for_each_accepted {value A} (l : list A) (ev : A → event value)
    (answer : A → option exn) :
  (∀ x, x ∈ l → answer x = None) →
  for_each l (λ x, _ <- emit (ev x) ;;
                   match answer x with Some e => raise e | None => ret tt end)
  = (ev <$> l, Ok tt).
Proof.
  induction l as [|x l IH]; intros Haccept; [done|].
  cbn [for_each]. rewrite (Haccept x) by left.
  rewrite IH by (intros y Hy; apply Haccept; by right). reflexivity.
Qed.

(** When one is refused the loop ends with it. *)
Lemma for_each_refused {value A} (pre post : list A) x e
    (ev : A → event value) (answer : A → option exn) :
  (∀ y, y ∈ pre → answer y = None) →
  answer x = Some e →
  for_each (pre ++ x :: post)
    (λ x, _ <- emit (ev x) ;;
          match answer x with Some e => raise e | None => ret tt end)
  = (ev <$> (pre ++ [x]), Raise e).
Proof.
  intros Haccept Hrefuse. induction pre as [|y pre IH].
  - simpl. by rewrite Hrefuse.
  - change ((y :: pre) ++ x :: post) with (y :: (pre ++ x :: post)).
    cbn [for_each]. rewrite (Haccept y) by left.
    rewrite IH by (intros z Hz; apply Haccept; by right). reflexivity.
Qed.

Lemma write_calls_own U {value} (m : Metric) s (v : value) t region
    (items : list (string * DimValue)) :
  NoDup (dimensions m).*1 →
  items ⊆ dimensions m →
  write_calls ((λ d, EvWritePoints (json_body U m s v t region d) "s")
                 <$> items.*1)
  = (λ kv, (dimension_record U m s v t region kv, "s")) <$> items.
Proof.
  intros Hnodup Hsub. rewrite write_calls_writes, <- list_fmap_compose.
  apply list_fmap_ext. intros i kv Hi. simpl.
  rewrite (json_body_own U m s v t region kv Hnodup); [done|].
  apply Hsub, list_elem_of_lookup. eauto.
Qed.

(** The debug lines are printed without fail and are no write calls. *)
Lemma debug_lines U {value} (m : Metric) s (v : value) t (debug : bool) :
  ∃ tr,
    (if debug then
       _ <- emit (EvPrint (OutDebugHead (name m) (epoch U (to_local U t)) v)) ;;
       _ <- emit (EvPrint (OutDebugStatistic s)) ;;
       _ <- emit (EvPrint (OutDebugNamespace (namespace m))) ;;
       _ <- for_each (dimensions m).*1 (λ d,
              emit (EvPrint (OutDebugDimension d
                      (join_dimension (dimension_value m d))))) ;;
       emit (EvPrint OutDebugNewline)
     else ret tt) = (tr, Ok tt)
    ∧ write_calls tr = [].
Proof.
  destruct debug; [|by exists []].
  rewrite for_each_emit. eexists. split; [reflexivity|].
  simpl. rewrite write_calls_app, write_calls_prints. done.
Qed.

Lemma write_data_accepting_client U {value} region (x : Data value)
    ec2_names debug :
  write_data_to_influxdb U region x ec2_names debug
  = write_data_to_influxdb_client U (λ _ _, None) region x ec2_names debug.
Proof.
  destruct x as [[[m s] v] t].
  unfold write_data_to_influxdb, write_data_to_influxdb_client.
  pose proof (for_each_accepted (dimensions m).*1
                (λ d, EvWritePoints (json_body U m s v t region d) "s")
                (λ _, None) (λ _ _, eq_refl)) as Hloop.
  cbv beta iota in Hloop. rewrite Hloop. by rewrite !for_each_emit.
Qed.

(** X13: with a client that accepts them, the time-series sink makes one
    write call per dimension key of the metric, in the order of the keys
    and each with the key's own value(s) joined by "." under that key,
    whether or not debug is set, and returns; a write the client refuses
    ends the sink with the client's exception, after the calls up to and
    including the refused one and before any later one. *)
Theorem write_one_call_per_dimension U {value}
    (write_points : list (Point value) → string → option exn)
    region (m : Metric) s (v : value) t ec2_names debug :
  NoDup (dimensions m).*1 →
  ((∀ kv, kv ∈ dimensions m →
      write_points (dimension_record U m s v t region kv) "s" = None) →
   write_calls (write_data_to_influxdb_client U write_points region
                  (m, s, v, t) ec2_names debug).1
   = (λ kv, (dimension_record U m s v t region kv, "s")) <$> dimensions m
   ∧ (write_data_to_influxdb_client U write_points region
        (m, s, v, t) ec2_names debug).2 = Ok tt)
  ∧ (∀ pre kv post e,
       dimensions m = pre ++ kv :: post →
       (∀ kv', kv' ∈ pre →
          write_points (dimension_record U m s v t region kv') "s" = None) →
       write_points (dimension_record U m s v t region kv) "s" = Some e →
       write_calls (write_data_to_influxdb_client U write_points region
                      (m, s, v, t) ec2_names debug).1
       = (λ kv, (dimension_record U m s v t region kv, "s")) <$> (pre ++ [kv])
       ∧ (write_data_to_influxdb_client U write_points region
            (m, s, v, t) ec2_names debug).2 = Raise e).
Proof.
  intros Hnodup. unfold write_data_to_influxdb_client.
  destruct (debug_lines U m s v t debug) as (lines & -> & Hlines).
  rewrite bind_pair. split.
  - intros Haccept.
    rewrite (for_each_accepted _ _
               (λ d, write_points (json_body U m s v t region d) "s")).
    + simpl. rewrite write_calls_app, Hlines. simpl.
      split; [|done]. by apply write_calls_own.
    + intros d ([d' dv] & -> & Hin)%list_elem_of_fmap.
      rewrite (json_body_own U m s v t region (d', dv) Hnodup Hin).
      by apply Haccept.
  - intros pre kv post e Hdims Haccept Hrefuse.
    assert (pre ++ [kv] ⊆ dimensions m) as Hsub.
    { rewrite Hdims. intros x Hx. apply elem_of_app in Hx as [Hx|Hx].
      - apply elem_of_app. by left.
      - apply list_elem_of_singleton in Hx as ->.
        apply elem_of_app. right. left. }
    rewrite Hdims, fmap_app, fmap_cons.
    rewrite (for_each_refused _ _ _ e _
               (λ d, write_points (json_body U m s v t region d) "s")).
    + simpl. rewrite write_calls_app, Hlines. simpl.
      split; [|done].
      change (pre.*1 ++ [kv.1]) with (pre.*1 ++ [kv].*1).
      rewrite <- fmap_app. by apply write_calls_own.
    + intros d ([d' dv] & -> & Hin)%list_elem_of_fmap.
      rewrite (json_body_own U m s v t region (d', dv) Hnodup).
      * by apply Haccept.
      * apply Hsub, elem_of_app. by left.
    + rewrite (json_body_own U m s v t region kv Hnodup); [done|].
      apply Hsub, elem_of_app. right. left.
Qed.

Lemma write_one_call_per_dimension_witness :
  length (write_calls (write_data_to_influxdb_client utc_util refusing_client
                         "us-east-1"
                         (three_dimension_metric, "Average", 1, example_now)
                         ∅ true).1) = 2%nat
  ∧ (write_data_to_influxdb_client utc_util refusing_client "us-east-1"
       (three_dimension_metric, "Average", 1, example_now) ∅ true).2
    = Raise (InfluxDBServerError "write failed").
Proof.
  assert (NoDup (dimensions three_dimension_metric).*1) as Hnodup
    by compute_done.
  destruct (write_one_call_per_dimension utc_util refusing_client "us-east-1"
              three_dimension_metric "Average" 1 example_now ∅ true Hnodup)
    as [_ Hrefused].
  destruct (Hrefused [("InstanceId", DimList ["i-1234"])]
              ("AutoScalingGroupName", DimList ["web"])
              [("Zone", DimList ["a"])]
              (InfluxDBServerError "write failed") eq_refl)
    as [Hcalls Hout].
  - intros kv Hkv. apply list_elem_of_singleton in Hkv as ->. reflexivity.
  - reflexivity.
  - split; [by rewrite Hcalls|exact Hout].
Defined.

(** ** Complete runs *)

Lemma for_each_sink {value A} (l : list A) (body : A → M value unit)
    (sink : A → list (event value)) :
  (∀ x, body x = (sink x, Ok tt)) →
  for_each l body = (l ≫= sink, Ok tt).
Proof.
  intros Hbody. induction l as [|x l IH]; [done|].
  cbn [for_each]. by rewrite Hbody, bind_pair, IH.
Qed.

Lemma get_data_params_pairs metrics stats start end_ p :
  get_data_params metrics stats start end_ p
  = (λ q : Metric * string, (q.1, start, end_, q.2, None, seconds p))
      <$> (m ← metrics; s ← stats; [(m, s)]).
Proof.
  unfold get_data_params.
  induction metrics as [|m metrics IH]; [done|].
  csimpl. rewrite fmap_app, IH. f_equal. clear IH.
  induction stats as [|st stats IHs]; [done|]. csimpl. by rewrite IHs.
Qed.

(** Consuming the queries for [pairs] when each of them answers: every
    query is followed at once by what the sink does with its datapoints. *)
Lemma consume_stream U {value} (W : World value) start end_ period
    (pairs : list (Metric * string)) body sink data :
  (∀ x, body x = (sink x, Ok tt)) →
  (∀ q, q ∈ pairs →
     (get_metric_statistics U W q.1 start end_ q.2 None period).2
     = Ok (data q.1 q.2)) →
  for_each_gen
    (call_get_metric_statistics U W
       <$> ((λ q : Metric * string, (q.1, start, end_, q.2, None, period))
              <$> pairs))
    body
  = (query_stream U start end_ period data sink pairs, Ok tt).
Proof.
  intros Hbody. induction pairs as [|[m s] pairs IH]; intros Hdata; [done|].
  specialize (IH (λ q Hq, Hdata q (list_elem_of_further _ _ _ Hq))).
  set (rest := for_each_gen _ body) in IH.
  change (bind (get_metric_statistics U W m start end_ s None period)
            (λ xs, bind (for_each xs body) (λ _, rest))
          = (query_stream U start end_ period data sink ((m, s) :: pairs),
             Ok tt)).
  pose proof (get_metric_statistics_trace U W m start end_ s None period)
    as Htrace.
  pose proof (Hdata (m, s) ltac:(left)) as Hout. simpl in Hout.
  destruct (get_metric_statistics U W m start end_ s None period)
    as [tr r]. simpl in Htrace, Hout. subst tr r.
  rewrite bind_pair, (for_each_sink _ _ sink Hbody), bind_pair, IH.
  simpl. unfold query_stream. csimpl. by rewrite <- ?app_assoc.
Qed.

(** The same when the query for [q] fails after those for [pre] answered:
    the loop ends there. *)
Lemma consume_fail_fast U {value} (W : World value) start end_ period
    (pre post : list (Metric * string)) q e body sink data :
  (∀ x, body x = (sink x, Ok tt)) →
  (∀ q', q' ∈ pre →
     (get_metric_statistics U W q'.1 start end_ q'.2 None period).2
     = Ok (data q'.1 q'.2)) →
  (get_metric_statistics U W q.1 start end_ q.2 None period).2 = Raise e →
  for_each_gen
    (call_get_metric_statistics U W
       <$> ((λ q : Metric * string, (q.1, start, end_, q.2, None, period))
              <$> (pre ++ q :: post)))
    body
  = (query_stream U start end_ period data sink pre
     ++ [EvQuery q.1 (to_utc U start) (to_utc U end_) q.2 None period],
     Raise e).
Proof.
  intros Hbody Hdata Hfail. induction pre as [|[m s] pre IH].
  - destruct q as [m s]. simpl in Hfail.
    set (rest := for_each_gen
                   (call_get_metric_statistics U W
                      <$> ((λ q : Metric * string,
                              (q.1, start, end_, q.2, None, period)) <$> post))
                   body).
    change (bind (get_metric_statistics U W m start end_ s None period)
              (λ xs, bind (for_each xs body) (λ _, rest))
            = ([] ++ [EvQuery m (to_utc U start) (to_utc U end_) s None period],
               Raise e)).
    pose proof (get_metric_statistics_trace U W m start end_ s None period)
      as Htrace.
    destruct (get_metric_statistics U W m start end_ s None period)
      as [tr r]. simpl in Htrace, Hfail. by subst tr r.
  - specialize (IH (λ q' Hq', Hdata q' (list_elem_of_further _ _ _ Hq'))).
    set (rest := for_each_gen _ body) in IH.
    change (bind (get_metric_statistics U W m start end_ s None period)
              (λ xs, bind (for_each xs body) (λ _, rest))
            = (query_stream U start end_ period data sink ((m, s) :: pre)
               ++ [EvQuery q.1 (to_utc U start) (to_utc U end_) q.2 None period],
               Raise e)).
    pose proof (get_metric_statistics_trace U W m start end_ s None period)
      as Htrace.
    pose proof (Hdata (m, s) ltac:(left)) as Hout. simpl in Hout.
    destruct (get_metric_statistics U W m start end_ s None period)
      as [tr r]. simpl in Htrace, Hout. subst tr r.
    rewrite bind_pair, (for_each_sink _ _ sink Hbody), bind_pair, IH.
    simpl. unfold query_stream. csimpl. by rewrite <- ?app_assoc.
Qed.

Lemma print_data_line U {value} (x : Data value) ec2_names :
  print_data U x ec2_names = ([text_line U ec2_names x], Ok tt).
Proof. by destruct x as [[[m s] v] t]. Qed.

Lemma get_data_pairs U {value} (W : World value) metrics stats start end_
    minutes :
  Z.abs minutes ≤ 999999999 * 1440 →
  get_data U W metrics stats start end_ minutes
  = Ok (call_get_metric_statistics U W
          <$> ((λ q : Metric * string,
                  (q.1, start, end_, q.2, None, (minutes * 60) mod 86400))
                 <$> (m ← metrics; s ← stats; [(m, s)]))).
Proof.
  intros Hrep. unfold get_data.
  destruct (timedelta_minutes_ok minutes Hrep) as [d Hd]. rewrite Hd. simpl.
  by rewrite get_data_params_pairs, (timedelta_minutes_seconds _ _ Hd).
Qed.

(** X14: a complete run in text mode: after the catalog (and the names) are
    fetched, the queries are issued metric by metric, Average before Sum,
    and the lines of each query's datapoints are printed before the next
    query is issued; the run returns 0. *)
Theorem main_text_stream U {value} (W : World value) fuel o start end_
    tr1 metrics tr2 names data :
  opt_check o = false →
  opt_output o = "graphite-text" →
  get_time_range U (now W) (opt_time o) (opt_interval o) = Ok (start, end_) →
  get_metrics W fuel (opt_region o) = (tr1, Ok metrics) →
  (if opt_resolve o then get_ec2_names W (opt_region o) else ret ∅)
  = (tr2, Ok names) →
  Z.abs (opt_period o) ≤ 999999999 * 1440 →
  (∀ q, q ∈ (m ← metrics; s ← ["Average"; "Sum"]; [(m, s)]) →
     (get_metric_statistics U W q.1 start end_ q.2 None
        ((opt_period o * 60) mod 86400)).2 = Ok (data q.1 q.2)) →
  main U W fuel o
  = (tr1 ++ tr2
     ++ query_stream U start end_ ((opt_period o * 60) mod 86400) data
          (λ x, [text_line U names x])
          (m ← metrics; s ← ["Average"; "Sum"]; [(m, s)]),
     Ok 0).
Proof.
  intros Hcheck Houtput Hrange Hmetrics Hnames Hrep Hdata.
  rewrite main_stages, Hrange. unfold lift. rewrite bind_pair. simpl.
  rewrite Hmetrics, bind_pair, Hnames, bind_pair.
  unfold output_stage. rewrite Hcheck, Houtput, decide_True by done.
  rewrite get_data_pairs by done. unfold lift. rewrite bind_pair.
  rewrite (consume_stream U W start end_ _ _ _ (λ x, [text_line U names x]) data);
    [|intros x; apply print_data_line|exact Hdata].
  simpl. by rewrite app_nil_r.
Qed.

Lemma main_text_stream_witness :
  main utc_util example_world 3 default_options
  = ((EvListMetrics "us-east-1" <$> [None; Some "B"; Some "C"]) ++ []
     ++ query_stream utc_util example_start example_noon ((5 * 60) mod 86400)
          example_data (λ x, [text_line utc_util ∅ x])
          (m ← [metric_A; metric_B; metric_C]; s ← ["Average"; "Sum"];
           [(m, s)]),
     Ok 0).
Proof.
  apply (main_text_stream utc_util example_world 3 default_options
           example_start example_noon
           (EvListMetrics "us-east-1" <$> [None; Some "B"; Some "C"])
           [metric_A; metric_B; metric_C] [] ∅ example_data);
    [reflexivity | reflexivity | reflexivity | reflexivity | reflexivity
    | vm_compute; discriminate |].
  intros q Hq.
  repeat (apply elem_of_cons in Hq as [->|Hq]; [reflexivity|]).
  by apply elem_of_nil in Hq.
Defined.

(** X16: a failing query ends the run in text mode with its exception: the
    datapoints of the earlier queries have been printed, the failing query
    was issued, and no later query is. *)
Theorem main_query_failure U {value} (W : World value) fuel o start end_
    tr1 metrics tr2 names data pre q post e :
  opt_check o = false →
  opt_output o = "graphite-text" →
  get_time_range U (now W) (opt_time o) (opt_interval o) = Ok (start, end_) →
  get_metrics W fuel (opt_region o) = (tr1, Ok metrics) →
  (if opt_resolve o then get_ec2_names W (opt_region o) else ret ∅)
  = (tr2, Ok names) →
  Z.abs (opt_period o) ≤ 999999999 * 1440 →
  (m ← metrics; s ← ["Average"; "Sum"]; [(m, s)]) = pre ++ q :: post →
  (∀ q', q' ∈ pre →
     (get_metric_statistics U W q'.1 start end_ q'.2 None
        ((opt_period o * 60) mod 86400)).2 = Ok (data q'.1 q'.2)) →
  (get_metric_statistics U W q.1 start end_ q.2 None
     ((opt_period o * 60) mod 86400)).2 = Raise e →
  main U W fuel o
  = (tr1 ++ tr2
     ++ query_stream U start end_ ((opt_period o * 60) mod 86400) data
          (λ x, [text_line U names x]) pre
     ++ [EvQuery q.1 (to_utc U start) (to_utc U end_) q.2 None
           ((opt_period o * 60) mod 86400)],
     Raise e).
Proof.
  intros Hcheck Houtput Hrange Hmetrics Hnames Hrep Hpairs Hdata Hfail.
  rewrite main_stages, Hrange. unfold lift. rewrite bind_pair. simpl.
  rewrite Hmetrics, bind_pair, Hnames, bind_pair.
  unfold output_stage. rewrite Hcheck, Houtput, decide_True by done.
  rewrite get_data_pairs by done. unfold lift. rewrite bind_pair.
  change statistics_list with ["Average"; "Sum"]. rewrite Hpairs.
  rewrite (consume_fail_fast U W start end_ _ pre post q e _
             (λ x, [text_line U names x]) data);
    [|intros x; apply print_data_line|exact Hdata|exact Hfail].
  reflexivity.
Qed.

Lemma main_query_failure_witness :
  main utc_util sum_fails_world 3 default_options
  = ((EvListMetrics "us-east-1" <$> [None; Some "B"; Some "C"]) ++ []
     ++ query_stream utc_util example_start example_noon ((5 * 60) mod 86400)
          example_data (λ x, [text_line utc_util ∅ x])
          [(metric_A, "Average")]
     ++ [EvQuery metric_A example_start example_noon "Sum" None
           ((5 * 60) mod 86400)],
     Raise (BotoServerError "Throttling")).
Proof.
  apply (main_query_failure utc_util sum_fails_world 3 default_options
           example_start example_noon
           (EvListMetrics "us-east-1" <$> [None; Some "B"; Some "C"])
           [metric_A; metric_B; metric_C] [] ∅ example_data
           [(metric_A, "Average")] (metric_A, "Sum")
           [(metric_B, "Average"); (metric_B, "Sum");
            (metric_C, "Average"); (metric_C, "Sum")]
           (BotoServerError "Throttling"));
    [reflexivity | reflexivity | reflexivity | reflexivity | reflexivity
    | vm_compute; discriminate | reflexivity | | reflexivity].
  intros q Hq.
  repeat (apply elem_of_cons in Hq as [->|Hq]; [reflexivity|]).
  by apply elem_of_nil in Hq.
Defined.

(** ** What a run never does *)

Lemma for_each_gen_Forall {value A} (P : event value → Prop)
    (gen : Generator value A) (body : A → M value unit) :
  Forall (λ batch, Forall P batch.1) gen →
  (∀ x, Forall P (body x).1) →
  Forall P (for_each_gen gen body).1.
Proof.
  intros Hgen Hbody. induction Hgen as [|batch gen Hbatch _ IH]; [constructor|].
  cbn [for_each_gen]. apply Forall_bind; [done|]. intros xs _.
  apply Forall_bind; [by apply for_each_Forall|]. by intros _ _.
Qed.

Lemma get_data_Forall U {value} (W : World value) (P : event value → Prop)
    metrics stats start end_ minutes gen :
  (∀ m start_utc end_utc s unit period,
     P (EvQuery m start_utc end_utc s unit period)) →
  get_data U W metrics stats start end_ minutes = Ok gen →
  Forall (λ batch, Forall P batch.1) gen.
Proof.
  intros HP. unfold get_data.
  destruct (timedelta_minutes minutes) as [p| |]; simpl; [|done..].
  intros [= <-]. apply Forall_fmap, Forall_true.
  intros [[[[[m start'] end'] s] unit] period]. simpl.
  rewrite get_metric_statistics_trace. by repeat constructor.
Qed.

Lemma get_metrics_loop_requests {value} (P : event value → Prop)
    fuel region list_metrics buf token :
  (∀ r request, P (EvListMetrics r request)) →
  Forall P (@get_metrics_loop value fuel region list_metrics buf token).1.
Proof.
  intros HP. revert buf token.
  induction fuel as [|fuel IH]; intros buf token; [constructor|].
  cbn [get_metrics_loop]. apply Forall_bind; [by repeat constructor|].
  intros _ _. case_match; [constructor|apply IH].
Qed.

Lemma main_Forall U {value} (W : World value) (P : event value → Prop)
    fuel o :
  (∀ region request, P (EvListMetrics region request)) →
  (opt_resolve o = true → ∀ region, P (EvGetAllInstances region)) →
  (∀ start end_ metrics names,
     Forall P (output_stage U W o start end_ metrics names).1) →
  Forall P (main U W fuel o).1.
Proof.
  intros Hrequest Hlisting Hstage. rewrite main_stages.
  apply Forall_bind; [constructor|]. intros window _.
  apply Forall_bind.
  { unfold get_metrics. case_match; [|constructor].
    by apply get_metrics_loop_requests. }
  intros metrics _. apply Forall_bind.
  { destruct (opt_resolve o); [|constructor].
    unfold get_ec2_names. case_match; [|constructor]. simpl.
    repeat constructor. by apply Hlisting. }
  intros names _. apply Forall_bind; [apply Hstage|]. intros; constructor.
Qed.

(** X18: in text mode no run ever touches InfluxDB: it neither creates the
    database nor writes a point, however the run ends. *)
Theorem text_mode_no_database U {value} (W : World value) fuel o :
  opt_output o = "graphite-text" →
  Forall (λ e, is_database_call e = false) (main U W fuel o).1.
Proof.
  intros Houtput. apply main_Forall.
  - done.
  - done.
  - intros start end_ metrics names. unfold output_stage.
    rewrite Houtput, decide_True by done.
    destruct (opt_check o).
    + simpl. rewrite for_each_emit. simpl.
      repeat (constructor; [done|]).
      rewrite ?app_nil_r. apply Forall_fmap, Forall_true. by intros ?.
    + apply Forall_bind; [constructor|]. intros gen Hgen. simpl in Hgen.
      apply for_each_gen_Forall.
      * eapply get_data_Forall; [|exact Hgen]; done.
      * intros [[[m s] v] t]. by repeat constructor.
Qed.

Lemma text_mode_no_database_witness :
  Forall (λ e, is_database_call e = false)
    (main utc_util example_world 3 default_options).1.
Proof.
  apply (text_mode_no_database utc_util example_world 3 default_options).
  reflexivity.
Defined.

(** X19: in influxdb mode (outside check mode) nothing is printed, however
    the run ends: the datapoints go to the database only. *)
Theorem influxdb_mode_prints_nothing U {value} (W : World value) fuel o :
  opt_check o = false →
  opt_output o = "influxdb" →
  Forall (λ e, is_print e = false) (main U W fuel o).1.
Proof.
  intros Hcheck Houtput. apply main_Forall.
  - done.
  - done.
  - intros start end_ metrics names. unfold output_stage.
    rewrite Hcheck, Houtput, decide_False, decide_True by done.
    apply Forall_bind.
    { rewrite create_step_trace. by repeat constructor. }
    intros _ _. apply Forall_bind; [constructor|]. intros gen Hgen.
    simpl in Hgen. apply for_each_gen_Forall.
    + eapply get_data_Forall; [|exact Hgen]; done.
    + intros x. rewrite write_data_trace. destruct x as [[[m s] v] t].
      apply Forall_fmap, Forall_true. by intros ?.
Qed.

Lemma influxdb_mode_prints_nothing_witness :
  Forall (λ e, is_print e = false)
    (main utc_util example_world 3 influxdb_options).1.
Proof.
  apply (influxdb_mode_prints_nothing utc_util example_world 3
           influxdb_options); reflexivity.
Defined.

(** X20: without --resolve no run ever lists the EC2 instances. *)
Theorem no_resolve_no_listing U {value} (W : World value) fuel o :
  opt_resolve o = false →
  Forall (λ e, is_instance_listing e = false) (main U W fuel o).1.
Proof.
  intros Hresolve. apply main_Forall.
  - done.
  - by rewrite Hresolve.
  - intros start end_ metrics names. unfold output_stage.
    destruct (opt_check o).
    + simpl. rewrite for_each_emit. simpl.
      repeat (constructor; [done|]).
      rewrite ?app_nil_r. apply Forall_fmap, Forall_true. by intros ?.
    + case_decide; [|case_decide; [|constructor]].
      * apply Forall_bind; [constructor|]. intros gen Hgen. simpl in Hgen.
        apply for_each_gen_Forall.
        -- eapply get_data_Forall; [|exact Hgen]; done.
        -- intros [[[m s] v] t]. by repeat constructor.
      * apply Forall_bind.
        { rewrite create_step_trace. by repeat constructor. }
        intros _ _. apply Forall_bind; [constructor|]. intros gen Hgen.
        simpl in Hgen. apply for_each_gen_Forall.
        -- eapply get_data_Forall; [|exact Hgen]; done.
        -- intros x. rewrite write_data_trace. destruct x as [[[m s] v] t].
           apply Forall_fmap, Forall_true. by intros ?.
Qed.

Lemma no_resolve_no_listing_witness :
  Forall (λ e, is_instance_listing e = false)
    (main utc_util example_world 3 default_options).1.
Proof.
  apply (no_resolve_no_listing utc_util example_world 3 default_options).
  reflexivity.
Defined.

(** ** Name resolution *)

(** X21: name resolution touches the dimension values only: for a metric
    none of whose dimension values is an id of the table, the tag is the
    one computed without any table, even if the region, the namespace or
    the metric name happens to be an id of the table. *)
Theorem metric_to_tag_unresolved metric st (ec2_names : gmap string string) :
  (∀ x s, x ∈ dimensions metric → s ∈ iter_value x.2 →
     ec2_names !! s = None) →
  metric_to_tag metric st ec2_names = metric_to_tag metric st ∅.
Proof.
  intros Hnone. rewrite !metric_to_tag_components. do 4 f_equal.
  apply Forall_bind_ext, Forall_forall. intros x Hx.
  assert (x ∈ dimensions metric) as Hdim by (by rewrite <- sorted_items_perm).
  unfold dimension_components. apply list_fmap_ext. intros i s Hs.
  unfold tag_component. case_decide; [done|].
  rewrite (Hnone x s Hdim), lookup_empty; [done|].
  apply list_elem_of_lookup. eauto.
Qed.

Lemma metric_to_tag_unresolved_witness :
  metric_to_tag cpu_metric "Average"
    {[ "i-9999" := "db-1"; "CPUUtilization" := "cpu" ]}
  = metric_to_tag cpu_metric "Average" ∅.
Proof.
  apply (metric_to_tag_unresolved cpu_metric "Average"
           {[ "i-9999" := "db-1"; "CPUUtilization" := "cpu" ]}).
  intros x s Hx Hs.
  apply list_elem_of_singleton in Hx. subst x.
  apply list_elem_of_singleton in Hs. subst s.
  reflexivity.
Defined.
